(** * Script-block extraction: [Data_Generation.write_script_to_file]

    A shallow embedding of the method
    [write_script_to_file] of [data_preparation/data_generation.py]
    (lines 49-88), together with the Python string primitives it calls
    ([str.find], [len], slicing, [str.strip]) and the file operations it
    performs ([open(path, "w")], [file.write], closing by the [with]
    block).

    Strings are [String.string]; a character is a code point below 256.
    Offsets and lengths are Python integers, modelled in [Z], so that the
    sentinel [-1] of [str.find] is the value the code compares against.
    The module [Encoded] is the same method with the fault that
    [file.write] raises when the text encoding of the file lacks a
    character. *)

From Stdlib Require Import ZArith Lia Bool Ascii String List.
From stdpp Require Import gmap strings.

Local Open Scope string_scope.
Local Open Scope Z_scope.

#[local] Arguments String.append !s1 s2.

(** ** Python string primitives *)

Module Py.

(** [len(s)] *)
Definition len (s : string) : Z := Z.of_nat (String.length s).

(** The characters of [s] from offset [n] on. *)
Fixpoint sdrop (n : nat) (s : string) : string :=
  match n, s with
  | O, _ => s
  | S _, EmptyString => EmptyString
  | S n', String _ s' => sdrop n' s'
  end.

(** The first [n] characters of [s]. *)
Fixpoint stake (n : nat) (s : string) : string :=
  match n, s with
  | O, _ => EmptyString
  | S _, EmptyString => EmptyString
  | S n', String c s' => String c (stake n' s')
  end.

(** [s.startswith(p)] *)
Fixpoint startswith (p s : string) : bool :=
  match p, s with
  | EmptyString, _ => true
  | String _ _, EmptyString => false
  | String a p', String b s' => Ascii.eqb a b && startswith p' s'
  end.

(** Left-to-right scan: the least offset, counted from [i] at the head
    of [s], at which [sub] starts, or [-1]. *)
Fixpoint scan (sub s : string) (i : Z) : Z :=
  if startswith sub s then i
  else match s with
       | EmptyString => -1
       | String _ s' => scan sub s' (i + 1)
       end.

(** A negative index counts from the end, and saturates at 0. *)
Definition adjust (i n : Z) : Z :=
  if i <? 0 then Z.max 0 (i + n) else i.

(** [s.find(sub, start)]: the lowest index at or after [start] where
    [sub] occurs in [s], and [-1] when there is none. *)
Definition find_from (s sub : string) (start : Z) : Z :=
  let start := adjust start (len s) in
  if len s - start <? len sub then -1
  else scan sub (sdrop (Z.to_nat start) s) start.

(** [s.find(sub)] *)
Definition find (s sub : string) : Z := find_from s sub 0.

(** [s[lo:hi]]: both bounds are adjusted as above and clipped to
    [len(s)]; an empty range gives the empty string. *)
Definition slice (s : string) (lo hi : Z) : string :=
  let lo := Z.min (adjust lo (len s)) (len s) in
  let hi := Z.min (adjust hi (len s)) (len s) in
  stake (Z.to_nat (hi - lo)) (sdrop (Z.to_nat lo) s).

(** [c.isspace()] on code points below 256: TAB, LF, VT, FF, CR, the
    separators FS, GS, RS, US, SPACE, NEL and NBSP. *)
Definition isspace (c : ascii) : bool :=
  let n := N_of_ascii c in
  ((9 <=? n) && (n <=? 13) || (28 <=? n) && (n <=? 32)
   || (n =? 133) || (n =? 160))%N.

(** [s.lstrip()] *)
Fixpoint lstrip (s : string) : string :=
  match s with
  | EmptyString => EmptyString
  | String c s' => if isspace c then lstrip s' else s
  end.

(** [s.rstrip()] *)
Fixpoint rstrip (s : string) : string :=
  match s with
  | EmptyString => EmptyString
  | String c s' =>
      match rstrip s' with
      | EmptyString => if isspace c then EmptyString else String c EmptyString
      | r => String c r
      end
  end.

(** [s.strip()] *)
Definition strip (s : string) : string := rstrip (lstrip s).

End Py.

(** ** Files and faults

    The part of the outside world the method touches: the contents of the
    files, the paths [open] refuses, and the sequence of file operations
    performed so far. *)

Inductive event : Type :=
| Opened (path : string)
| Written (path data : string)
| Closed (path : string).

Record world : Type := World {
  files : gmap string string;
  denied : gset string;
  trace : list event
}.

Inductive exn : Type :=
| OSError (path : string).

Inductive outcome (A : Type) : Type :=
| Returned (a : A)
| Raised (e : exn).
Arguments Returned {A} a.
Arguments Raised {A} e.

(** A computation runs in a world and either returns or raises; the
    effects performed before a fault stay. *)
Definition io (A : Type) : Type := world -> outcome A * world.

Definition ret {A : Type} (a : A) : io A := fun w => (Returned a, w).

Definition bind {A B : Type} (c : io A) (k : A -> io B) : io B :=
  fun w =>
    match c w with
    | (Returned a, w1) => k a w1
    | (Raised e, w1) => (Raised e, w1)
    end.

Notation "x <- c ;; k" := (bind c (fun x => k))
  (at level 100, c at next level, right associativity).
Notation "c ;; k" := (bind c (fun _ => k))
  (at level 100, right associativity).

(** [open(path, "w")]: refused paths raise; otherwise the file is created
    or truncated. The handle is the path itself. *)
Definition open_w (path : string) : io string :=
  fun w =>
    if decide (path ∈ denied w) then (Raised (OSError path), w)
    else (Returned path,
          {| files := <[path := ""]> (files w);
             denied := denied w;
             trace := trace w ++ [Opened path] |}).

(** [file.write(data)]: the data goes after what the file already holds.
    This is the write of a file whose text encoding has every character
    of [data]; the fault of an encoding that lacks one is in [Encoded]
    below. Faults of the device are not modelled. *)
Definition write (file data : string) : io unit :=
  fun w =>
    (Returned tt,
     {| files := <[file := default "" (files w !! file) ++ data]> (files w);
        denied := denied w;
        trace := trace w ++ [Written file data] |}).

Definition close (file : string) : io unit :=
  fun w =>
    (Returned tt,
     {| files := files w; denied := denied w;
        trace := trace w ++ [Closed file] |}).

(** [with open(path, "w") as file: body]: the file is closed when the
    body returns and also when it raises. *)
Definition with_open_w {A : Type} (path : string) (body : string -> io A) : io A :=
  fun w =>
    match open_w path w with
    | (Raised e, w1) => (Raised e, w1)
    | (Returned file, w1) =>
        let '(r, w2) := body file w1 in
        let '(_, w3) := close file w2 in
        (r, w3)
    end.

(** ** The method *)

Definition failure_message : string :=
  "Script content must be enclosed between ```python and ``` tags.".

(** Lines 54-73: the chain of [find] calls. Each later marker is tried
    only while [start_index] is still [-1]; [l1] is reassigned with it. *)
Definition opening (script_content : string) : Z * Z :=
  let start_index := Py.find script_content "```python" in
  let l1 := Py.len "```python" in
  let '(start_index, l1) :=
    if start_index =? -1
    then (Py.find script_content "Action:", Py.len "Action:")
    else (start_index, l1) in
  let '(start_index, l1) :=
    if start_index =? -1
    then (Py.find script_content "```bash", Py.len "```bash")
    else (start_index, l1) in
  let '(start_index, l1) :=
    if start_index =? -1
    then (Py.find script_content "```markdown", Py.len "```markdown")
    else (start_index, l1) in
  let '(start_index, l1) :=
    if start_index =? -1
    then (Py.find script_content "```makefile", Py.len "```makefile")
    else (start_index, l1) in
  let '(start_index, l1) :=
    if start_index =? -1
    then (Py.find script_content "```text", Py.len "```text")
    else (start_index, l1) in
  let '(start_index, l1) :=
    if start_index =? -1
    then (Py.find script_content "```", Py.len "```")
    else (start_index, l1) in
  (start_index, l1).

(** Lines 75-77: the closing fence, and the fallback when there is none. *)
Definition closing (script_content : string) (start_index l1 : Z) : Z :=
  let end_index := Py.find_from script_content "```" (start_index + l1) in
  if end_index =? -1 then Py.len script_content - 1 else end_index.

(** Line 82: the text kept. *)
Definition extracted (script_content : string) (start_index l1 end_index : Z) : string :=
  Py.strip (Py.slice script_content (start_index + l1) end_index).

(** Lines 49-88. [Path(file_name)] names the file [file_name]. *)
Definition write_script_to_file (script_content file_name : string) : io string :=
  let '(start_index, l1) := opening script_content in
  let end_index := closing script_content start_index l1 in
  if (start_index =? -1) || (end_index =? -1) then
    ret failure_message
  else
    let script_content := extracted script_content start_index l1 end_index in
    let file_path := file_name in
    with_open_w file_path (fun file => write file script_content) ;;
    ret script_content.

(** ** Vocabulary of the properties *)

(** The seven opening markers, in the order the method tries them. *)
Definition markers : list string :=
  ["```python"; "Action:"; "```bash"; "```markdown"; "```makefile";
   "```text"; "```"].

(** [sub] occurs in [s] at offset [k]. *)
Definition occurs_at (sub s : string) (k : nat) : Prop :=
  exists pre suf, s = pre ++ sub ++ suf /\ String.length pre = k.

Definition occurs (sub s : string) : Prop := exists k, occurs_at sub s k.

(** [k] is the least offset not below [a] at which [sub] occurs in [s]. *)
Definition first_from (sub s : string) (a k : nat) : Prop :=
  (a <= k)%nat /\ occurs_at sub s k /\
  forall k', (a <= k')%nat -> (k' < k)%nat -> ~ occurs_at sub s k'.

Definition first_at (sub s : string) (k : nat) : Prop := first_from sub s 0 k.

(** The same, decided. *)
Definition occurs_atb (sub s : string) (k : nat) : bool :=
  (k <=? String.length s)%nat && Py.startswith sub (Py.sdrop k s).

Definition nl : string := String (ascii_of_nat 10) EmptyString.

Definition world0 : world := {| files := ∅; denied := ∅; trace := [] |}.

(** The chain of conditionals read as a scan of a list with early exit,
    for comparison with [opening]: the first marker that [find] locates
    gives the offset and the length; when none is located the offset is
    [-1] and the length is that of the marker tried last. *)
Fixpoint first_found (ms : list string) (s : string) (last : Z) : Z * Z :=
  match ms with
  | [] => (-1, last)
  | m :: ms' =>
      let k := Py.find s m in
      if k =? -1 then first_found ms' s (Py.len m) else (k, Py.len m)
  end.

(** List order: the pair comes from the first marker of the list that
    occurs at all, taken at its own leftmost occurrence. *)
Definition list_order_rule (raw : string) (start l1 : Z) : Prop :=
  exists i m k,
    markers !! i = Some m /\ start = Z.of_nat k /\ l1 = Py.len m
    /\ first_at m raw k
    /\ forall j m', (j < i)%nat -> markers !! j = Some m' -> ~ occurs m' raw.

(** Leftmost occurrence: the pair comes from the marker that occurs at
    the smallest offset of all, the list order deciding only between
    markers that start at that same offset. *)
Definition leftmost_rule (raw : string) (start l1 : Z) : Prop :=
  exists i m k,
    markers !! i = Some m /\ start = Z.of_nat k /\ l1 = Py.len m
    /\ occurs_at m raw k
    /\ forall j m' k', markers !! j = Some m' -> occurs_at m' raw k' ->
         (k < k')%nat \/ (k = k' /\ (i <= j)%nat).

(** Two of the markers occur, at different offsets. *)
Definition two_markers_apart (raw : string) : Prop :=
  exists m m' k k',
    m ∈ markers /\ m' ∈ markers /\ m <> m'
    /\ occurs_at m raw k /\ occurs_at m' raw k' /\ k <> k'.

(** Every character of [s] is white space. *)
Definition all_space (s : string) : Prop :=
  forall pre c suf, s = pre ++ String c suf -> Py.isspace c = true.

(** [content] is [mid] without its leading and trailing white space. *)
Definition stripped_of (mid content : string) : Prop :=
  exists l r,
    mid = l ++ content ++ r /\ all_space l /\ all_space r
    /\ (forall c t, content = String c t -> Py.isspace c = false)
    /\ (forall t c, content = t ++ String c "" -> Py.isspace c = false).

(** [content] is the stripped text between offset [a] of [raw] and the
    next fence at or after [a]. *)
Definition fenced_content (raw : string) (a : nat) (content : string) : Prop :=
  exists head mid tail,
    raw = head ++ mid ++ "```" ++ tail /\ String.length head = a
    /\ first_from "```" raw a (String.length head + String.length mid)
    /\ stripped_of mid content.

(** The world after [path] has been opened for writing, given [content]
    in one write, and closed. *)
Definition overwritten (w : world) (path content : string) : world :=
  {| files := <[path := content]> (files w);
     denied := denied w;
     trace := trace w ++ [Opened path; Written path content; Closed path] |}.

(** The number of write operations in a trace. *)
Fixpoint writes (t : list event) : nat :=
  match t with
  | [] => 0
  | Written _ _ :: t' => S (writes t')
  | _ :: t' => writes t'
  end.

(** ** Example texts *)

(** An example text: a markdown block, and [Action:] to the right of it. *)
Definition raw_later_action : string :=
  "```markdown" ++ nl ++ "hi" ++ nl ++ "``` Action: go".

(** The example of the specification: a closed python block inside other
    text. *)
Definition raw_example : string :=
  "prefix ```python" ++ nl ++ "print(1)" ++ nl ++ "``` suffix".

(** An opening marker with no closing fence, ending in a character that
    is not white space. *)
Definition raw_unclosed : string := "```python" ++ nl ++ "print(1)".

(** A closing fence that starts where the opening marker ends. *)
Definition raw_adjacent : string := "```python```".

(** A world in which [open] refuses ["out.py"]. *)
Definition world_refusing : world :=
  {| files := ∅; denied := {["out.py"]}; trace := [] |}.

(** ** Documents: pages and rows

    The two methods of the class that work on lists of documents,
    [generate_docs_pages] (lines 135-157) and [generate_docs2Dataframe]
    (lines 159-173). A document has a text and a dictionary of metadata
    with [str] keys, whose values are Python objects of any kind, [pyobj];
    [of_str] is a [str] seen as such an object. *)

Record document (pyobj : Type) : Type := mk_document {
  page_content : string;
  metadata : gmap string pyobj
}.
Arguments mk_document {pyobj} page_content metadata.
Arguments page_content {pyobj} d.
Arguments metadata {pyobj} d.

(** [s.replace(old, new)] for a non-empty [old]: occurrences are replaced
    from left to right and do not overlap; [skip] counts the characters of
    an occurrence already replaced that are still to be passed over. *)
Fixpoint replace_from (old new s : string) (skip : nat) : string :=
  match s with
  | EmptyString => EmptyString
  | String c s' =>
      match skip with
      | S k => replace_from old new s' k
      | O =>
          if Py.startswith old s
          then new ++ replace_from old new s' (String.length old - 1)
          else String c (replace_from old new s' 0)
      end
  end.

(** [s.replace("", new)]: [new] before every character and at the end. *)
Fixpoint replace_empty (new s : string) : string :=
  match s with
  | EmptyString => new
  | String c s' => new ++ String c (replace_empty new s')
  end.

(** [s.replace(old, new)] *)
Definition str_replace (s old new : string) : string :=
  match old with
  | EmptyString => replace_empty new s
  | String _ _ => replace_from old new s 0
  end.

(** The exceptions that leave [generate_docs_pages]: whatever the loader
    raises, and the [IndexError] of an index past the end of a list. *)
Inductive pages_fault : Type :=
| LoaderFault
| IndexError.

Inductive pages_result (A : Type) : Type :=
| Pages (a : A)
| Fault (f : pages_fault).
Arguments Pages {A} a.
Arguments Fault {A} f.

Section Pages.

Context {pyobj : Type}.

(** [TextLoader(path).load()]: the documents read, or [None] when loading
    raises. *)
Variable load : string -> option (list (document pyobj)).

(** [splitter.split_documents(docs)] for the splitter of lines 146-151. *)
Variable split_documents : list (document pyobj) -> list (document pyobj).

(** Line 144: the first document with its line feeds turned into spaces;
    [Document[0]] of an empty list raises. *)
Definition flatten_first (Document : list (document pyobj))
  : pages_result (list (document pyobj)) :=
  match Document with
  | [] => Fault IndexError
  | first :: others =>
      Pages ({| page_content := str_replace (page_content first) nl " ";
                metadata := metadata first |} :: others)
  end.

(** Lines 135-157. The two [logger.info] calls only write to the log; the
    second one evaluates [pages[5]]. [Path] names the file of the string
    it is given. *)
Definition generate_docs_pages (input_file_name : string)
  : pages_result (list (document pyobj)) :=
  let data_dir := "data_preparation/data/KGraph_data/" ++ input_file_name in
  let inputdirectory := "./" ++ data_dir in
  match load inputdirectory with
  | None => Fault LoaderFault
  | Some Document =>
      match flatten_first Document with
      | Fault f => Fault f
      | Pages Document =>
          let pages := split_documents Document in
          match pages !! 5%nat with
          | None => Fault IndexError
          | Some _ => Pages pages
          end
      end
  end.

End Pages.

Section Rows.

Context {pyobj : Type}.

Variable of_str : string -> pyobj.

(** [uuid.uuid4().hex]: the draws of the process, in order. *)
Variable uuid4_hex : nat -> string.

(** Line 165-169: the dictionary display is filled from left to right,
    a later key replacing an equal earlier one. *)
Definition make_row (chunk : document pyobj) (chunk_id : string)
  : gmap string pyobj :=
  <["chunk_id" := of_str chunk_id]>
    (metadata chunk ∪ <["text" := of_str (page_content chunk)]> ∅).

(** Lines 163-170: the loop, with the rows built so far and the number
    of identifiers drawn so far. *)
Fixpoint rows_loop (documents : list (document pyobj))
    (rows : list (gmap string pyobj)) (drawn : nat)
  : list (gmap string pyobj) * nat :=
  match documents with
  | [] => (rows, drawn)
  | chunk :: documents' =>
      let row := make_row chunk (uuid4_hex drawn) in
      rows_loop documents' (rows ++ [row]) (S drawn)
  end.

(** Lines 159-173, up to the list [rows] of line 172 and the number of
    identifiers drawn. [pd.DataFrame(rows)] itself is not modelled: the
    frame has one record per dictionary of [rows], in the same order and
    with the cells of that dictionary, and fills in the keys that a
    dictionary lacks and another one has. *)
Definition generate_docs2Dataframe (documents : list (document pyobj))
    (drawn : nat) : list (gmap string pyobj) * nat :=
  rows_loop documents [] drawn.

End Rows.

(** Example documents, with [str] values as the metadata: one whose
    metadata has keys of its own named ["text"] and ["chunk_id"], and one
    of two lines. *)
Definition doc_shadowing : document string :=
  mk_document "hello"
    (<["text" := "shadow"]>
       (<["chunk_id" := "old"]> (<["source" := "f.txt"]> ∅))).

Definition doc_two_lines : document string :=
  mk_document ("one" ++ nl ++ "two") (<["source" := "notes.txt"]> ∅).

Definition uuid_example (n : nat) : string :=
  if Nat.even n then "0f8fad5bd9cb469fa16570867728950e"
  else "7c9e6679742540de944be07fc1f90ae7".

(** A loader that knows one file, and two splitters: one page per
    document, and six pages per document. *)
Definition load_example (path : string) : option (list (document string)) :=
  if String.eqb path "./data_preparation/data/KGraph_data/notes.txt"
  then Some [doc_two_lines] else None.

Definition split_one (docs : list (document string)) : list (document string) :=
  docs.

Definition split_six (docs : list (document string)) : list (document string) :=
  docs ++ docs ++ docs ++ docs ++ docs ++ docs.

(** ** Text encoding

    [open(file_path, "w")] opens the file in text mode: [file.write]
    encodes its argument with the encoding of the locale and raises
    [UnicodeEncodeError], before anything reaches the file, when the text
    has a character this encoding lacks. [Encoded] is the method with
    this fault; the encoding is given by [encodes], the characters it
    has. The definitions of the sections above are the case of an
    encoding that has every character of the text written. *)

Module Encoded.

Inductive exn : Type :=
| OSError (path : string)
| UnicodeEncodeError (data : string).

Inductive outcome (A : Type) : Type :=
| Returned (a : A)
| Raised (e : exn).
Arguments Returned {A} a.
Arguments Raised {A} e.

Definition io (A : Type) : Type := world -> outcome A * world.

Definition ret {A : Type} (a : A) : io A := fun w => (Returned a, w).

Definition bind {A B : Type} (c : io A) (k : A -> io B) : io B :=
  fun w =>
    match c w with
    | (Returned a, w1) => k a w1
    | (Raised e, w1) => (Raised e, w1)
    end.

(** Every character of [data] is one the encoding has. *)
Fixpoint encodable (encodes : ascii -> bool) (data : string) : bool :=
  match data with
  | EmptyString => true
  | String c data' => encodes c && encodable encodes data'
  end.

(** [open(path, "w")], as above. *)
Definition open_w (path : string) : io string :=
  fun w =>
    if decide (path ∈ denied w) then (Raised (OSError path), w)
    else (Returned path,
          {| files := <[path := ""]> (files w);
             denied := denied w;
             trace := trace w ++ [Opened path] |}).

(** [file.write(data)]: the whole text is encoded first; when that fails
    nothing is written. *)
Definition write (encodes : ascii -> bool) (file data : string) : io unit :=
  fun w =>
    if encodable encodes data
    then (Returned tt,
          {| files := <[file := default "" (files w !! file) ++ data]> (files w);
             denied := denied w;
             trace := trace w ++ [Written file data] |})
    else (Raised (UnicodeEncodeError data), w).

Definition close (file : string) : io unit :=
  fun w =>
    (Returned tt,
     {| files := files w; denied := denied w;
        trace := trace w ++ [Closed file] |}).

(** [with open(path, "w") as file: body]: the file is closed when the
    body returns and also when it raises. *)
Definition with_open_w {A : Type} (path : string) (body : string -> io A) : io A :=
  fun w =>
    match open_w path w with
    | (Raised e, w1) => (Raised e, w1)
    | (Returned file, w1) =>
        let '(r, w2) := body file w1 in
        let '(_, w3) := close file w2 in
        (r, w3)
    end.

(** Lines 49-88. *)
Definition write_script_to_file (encodes : ascii -> bool)
    (script_content file_name : string) : io string :=
  let '(start_index, l1) := opening script_content in
  let end_index := closing script_content start_index l1 in
  if (start_index =? -1) || (end_index =? -1) then
    ret failure_message
  else
    let script_content := extracted script_content start_index l1 end_index in
    let file_path := file_name in
    bind (with_open_w file_path (fun file => write encodes file script_content))
      (fun _ => ret script_content).

End Encoded.

(** An outcome of the method without the encoding fault, as an outcome
    of the method with it. *)
Definition embed_outcome {A : Type} (r : outcome A) : Encoded.outcome A :=
  match r with
  | Returned a => Encoded.Returned a
  | Raised (OSError path) => Encoded.Raised (Encoded.OSError path)
  end.

(** The text a call keeps when an opening marker is found (lines 54-82). *)
Definition kept_text (raw : string) : string :=
  let '(start, l1) := opening raw in
  extracted raw start l1 (closing raw start l1).

(** The world after [path] has been opened for writing and closed with
    nothing written. *)
Definition truncated (w : world) (path : string) : world :=
  {| files := <[path := ""]> (files w);
     denied := denied w;
     trace := trace w ++ [Opened path; Closed path] |}.

(** The encoding that has the characters below 128 only. *)
Definition ascii_only (c : ascii) : bool := (N_of_ascii c <? 128)%N.

(** The word with an e acute (code point 233), and a python block that
    holds it. *)
Definition accented_word : string := "caf" ++ String (ascii_of_nat 233) "".

Definition raw_accented : string :=
  "```python" ++ nl ++ accented_word ++ nl ++ "```".

(** A world in which ["out.py"] exists and holds a text. *)
Definition world_with_old : world :=
  {| files := {["out.py" := "old text"]}; denied := ∅; trace := [] |}.

(** ** The primitives on a few inputs, with the values Python gives *)

Example find_inside : Py.find "prefix ```python" "```python" = 7.
Proof. reflexivity. Qed.

Example find_nothing : Py.find "no fence" "```" = -1.
Proof. reflexivity. Qed.

Example find_from_end :
  Py.find_from "abc" "" 3 = 3 /\ Py.find_from "abc" "" 4 = -1.
Proof. split; reflexivity. Qed.

Example find_from_negative : Py.find_from "abcabc" "bc" (-2) = 4.
Proof. reflexivity. Qed.

Example slice_negative : Py.slice "abcdef" 2 (-1) = "cde".
Proof. reflexivity. Qed.

Example slice_empty_range : Py.slice "abcdef" 4 2 = "".
Proof. reflexivity. Qed.

Example strip_both_sides :
  Py.strip "  a b  " = "a b" /\ Py.strip "   " = "".
Proof. split; reflexivity. Qed.

(** ** Facts about strings *)

Section StringFacts.

Implicit Types (s t p sub pre suf : string) (c : ascii) (n k : nat).

Lemma app_assoc s t p : (s ++ t) ++ p = s ++ t ++ p.
Proof. induction s as [|c s IH]; simpl; [reflexivity | now rewrite IH]. Qed.

Lemma length_app s t :
  String.length (s ++ t) = (String.length s + String.length t)%nat.
Proof. induction s as [|c s IH]; simpl; [reflexivity | now rewrite IH]. Qed.

Lemma sdrop_app pre s : Py.sdrop (String.length pre) (pre ++ s) = s.
Proof. induction pre as [|c pre IH]; simpl; [now destruct s | exact IH]. Qed.

Lemma stake_app pre s : Py.stake (String.length pre) (pre ++ s) = pre.
Proof.
  induction pre as [|c pre IH]; simpl; [now destruct s | now rewrite IH].
Qed.

Lemma stake_sdrop n s : Py.stake n s ++ Py.sdrop n s = s.
Proof.
  revert s; induction n as [|n IH]; intros [|c s]; simpl; try reflexivity.
  now rewrite IH.
Qed.

Lemma length_stake n s :
  (n <= String.length s)%nat -> String.length (Py.stake n s) = n.
Proof.
  revert s; induction n as [|n IH]; intros [|c s]; simpl; intros H;
    try reflexivity; try lia.
  rewrite IH; lia.
Qed.

Lemma length_sdrop n s :
  String.length (Py.sdrop n s) = (String.length s - n)%nat.
Proof.
  revert s; induction n as [|n IH]; intros [|c s]; simpl; try reflexivity.
  apply IH.
Qed.

(** Splitting a string at an offset inside it. *)
Lemma split_at n s :
  (n <= String.length s)%nat ->
  exists pre, s = pre ++ Py.sdrop n s /\ String.length pre = n.
Proof.
  intros H. exists (Py.stake n s). split.
  - symmetry. apply stake_sdrop.
  - now apply length_stake.
Qed.

Lemma startswith_app p s : Py.startswith p (p ++ s) = true.
Proof.
  induction p as [|c p IH]; simpl; [reflexivity |].
  now rewrite Ascii.eqb_refl, IH.
Qed.

Lemma startswith_inv p s :
  Py.startswith p s = true -> exists suf, s = p ++ suf.
Proof.
  revert s; induction p as [|c p IH]; intros s H; simpl in *.
  - now exists s.
  - destruct s as [|c' s]; [discriminate |].
    apply andb_true_iff in H as [Hc Hp].
    apply Ascii.eqb_eq in Hc as ->.
    destruct (IH _ Hp) as [suf ->]. now exists suf.
Qed.

End StringFacts.

(** ** Occurrences, and what [find] returns *)

Section Occurrences.

Implicit Types (s t sub pre suf : string) (c : ascii) (a k : nat) (i : Z).

Lemma occurs_at_bound sub s k :
  occurs_at sub s k -> (k + String.length sub <= String.length s)%nat.
Proof.
  intros (pre & suf & -> & <-). rewrite !length_app. lia.
Qed.

Lemma occurs_at_decide sub s k :
  occurs_at sub s k <-> occurs_atb sub s k = true.
Proof.
  unfold occurs_atb. rewrite andb_true_iff, Nat.leb_le. split.
  - intros (pre & suf & -> & <-). split.
    + rewrite length_app. lia.
    + rewrite sdrop_app. apply startswith_app.
  - intros [Hk Hp]. destruct (split_at k s Hk) as (pre & E & L).
    destruct (startswith_inv _ _ Hp) as [suf Hs].
    exists pre, suf. split; [now rewrite <- Hs | exact L].
Qed.

Lemma occurs_at_head sub s :
  occurs_at sub s 0 <-> Py.startswith sub s = true.
Proof.
  rewrite occurs_at_decide. unfold occurs_atb. simpl.
  now destruct s.
Qed.

Lemma occurs_at_tail sub c s k :
  occurs_at sub (String c s) (S k) <-> occurs_at sub s k.
Proof. rewrite !occurs_at_decide. reflexivity. Qed.

Lemma occurs_at_skip pre t sub k :
  occurs_at sub (pre ++ t) (String.length pre + k) <-> occurs_at sub t k.
Proof.
  induction pre as [|c pre IH]; simpl; [reflexivity |].
  now rewrite occurs_at_tail.
Qed.

Lemma occurs_at_extend sub s t k :
  occurs_at sub s k -> occurs_at sub (s ++ t) k.
Proof.
  intros (pre & suf & -> & L). exists pre, (suf ++ t).
  split; [now rewrite !app_assoc | exact L].
Qed.

Lemma occurs_at_sdrop sub s a k :
  (a <= String.length s)%nat ->
  occurs_at sub (Py.sdrop a s) k <-> occurs_at sub s (a + k).
Proof.
  intros Ha. destruct (split_at a s Ha) as (pre & E & L).
  remember (Py.sdrop a s) as t eqn:Ht. clear Ht Ha. subst a s.
  symmetry. apply occurs_at_skip.
Qed.

Lemma scan_spec sub s i :
  (Py.scan sub s i = -1 /\ forall k, ~ occurs_at sub s k)
  \/ exists k, Py.scan sub s i = i + Z.of_nat k /\ first_at sub s k.
Proof.
  revert i. induction s as [|c s IH]; intros i; simpl;
    destruct (Py.startswith sub _) eqn:Hp.
  - right. exists 0%nat. split; [lia |].
    split; [lia |]. split; [now apply occurs_at_head | intros; lia].
  - left. split; [reflexivity |]. intros k Hk.
    pose proof (occurs_at_bound _ _ _ Hk) as Hb. simpl in Hb.
    assert (k = 0%nat) as -> by lia.
    apply occurs_at_head in Hk. congruence.
  - right. exists 0%nat. split; [lia |].
    split; [lia |]. split; [now apply occurs_at_head | intros; lia].
  - destruct (IH (i + 1)) as [[E N] | (k & E & _ & Hk & Hmin)].
    + left. split; [exact E |]. intros [|k] Hk.
      * apply occurs_at_head in Hk. congruence.
      * apply occurs_at_tail in Hk. now apply N in Hk.
    + right. exists (S k). split; [lia |]. split; [lia |]. split.
      * now apply occurs_at_tail.
      * intros [|k'] _ Hlt Hocc.
        -- apply occurs_at_head in Hocc. congruence.
        -- apply occurs_at_tail in Hocc. apply (Hmin k'); [lia | lia | exact Hocc].
Qed.

Lemma find_from_spec s sub a :
  (Py.find_from s sub (Z.of_nat a) = -1
   /\ forall k, (a <= k)%nat -> ~ occurs_at sub s k)
  \/ exists k, Py.find_from s sub (Z.of_nat a) = Z.of_nat k
               /\ first_from sub s a k.
Proof.
  unfold Py.find_from, Py.adjust, Py.len.
  destruct (Z.ltb_spec (Z.of_nat a) 0) as [Hneg | _]; [lia |].
  destruct (Z.ltb_spec (Z.of_nat (String.length s) - Z.of_nat a)
              (Z.of_nat (String.length sub))) as [Hshort | Hlong].
  - left. split; [reflexivity |]. intros k Hk Hocc.
    apply occurs_at_bound in Hocc. lia.
  - assert (a <= String.length s)%nat as Ha by lia.
    rewrite Nat2Z.id.
    destruct (scan_spec sub (Py.sdrop a s) (Z.of_nat a))
      as [[E N] | (k & E & _ & Hk & Hmin)].
    + left. split; [exact E |]. intros k Hk Hocc.
      apply (N (k - a)%nat). apply occurs_at_sdrop; [exact Ha |].
      now replace (a + (k - a))%nat with k by lia.
    + right. exists (a + k)%nat. split; [lia |]. split; [lia |]. split.
      * now apply occurs_at_sdrop.
      * intros k' Hge Hlt Hocc. apply (Hmin (k' - a)%nat); [lia | lia |].
        apply occurs_at_sdrop; [exact Ha |].
        now replace (a + (k' - a))%nat with k' by lia.
Qed.

Lemma find_spec s sub :
  (Py.find s sub = -1 /\ ~ occurs sub s)
  \/ exists k, Py.find s sub = Z.of_nat k /\ first_at sub s k.
Proof.
  destruct (find_from_spec s sub 0) as [[E N] | (k & E & Hk)].
  - left. split; [exact E |]. intros [k Hk]. apply (N k); [lia | exact Hk].
  - right. now exists k.
Qed.

Lemma first_from_unique sub s a k k' :
  first_from sub s a k -> first_from sub s a k' -> k = k'.
Proof.
  intros (Ha & Hk & Hmin) (Ha' & Hk' & Hmin').
  destruct (Nat.lt_trichotomy k k') as [H | [H | H]]; [| exact H |].
  - now apply Hmin' in Hk.
  - now apply Hmin in Hk'.
Qed.

Lemma find_absent s sub : ~ occurs sub s -> Py.find s sub = -1.
Proof.
  intros N. destruct (find_spec s sub) as [[E _] | (k & _ & _ & Hk & _)];
    [exact E | exfalso; apply N; now exists k].
Qed.

Lemma find_present s sub :
  occurs sub s -> exists k, Py.find s sub = Z.of_nat k /\ first_at sub s k.
Proof.
  intros H. destruct (find_spec s sub) as [[_ N] | Hk]; [contradiction | exact Hk].
Qed.

Lemma find_found s sub : Py.find s sub <> -1 -> occurs sub s.
Proof.
  intros N. destruct (find_spec s sub) as [[E _] | (k & _ & _ & Hk & _)];
    [contradiction | now exists k].
Qed.

End Occurrences.

(** ** The opening marker *)

Section Opening.

Implicit Types (raw s m : string) (ms : list string) (i j k : nat).

Lemma opening_first_found raw : opening raw = first_found markers raw 0.
Proof.
  unfold opening, markers, first_found.
  generalize (Py.find raw "```python"), (Py.find raw "Action:"),
    (Py.find raw "```bash"), (Py.find raw "```markdown"),
    (Py.find raw "```makefile"), (Py.find raw "```text"),
    (Py.find raw "```").
  intros f1 f2 f3 f4 f5 f6 f7.
  destruct (f1 =? -1) eqn:E1; cbv beta iota zeta; rewrite ?E1; [| reflexivity].
  destruct (f2 =? -1) eqn:E2; cbv beta iota zeta; rewrite ?E2; [| reflexivity].
  destruct (f3 =? -1) eqn:E3; cbv beta iota zeta; rewrite ?E3; [| reflexivity].
  destruct (f4 =? -1) eqn:E4; cbv beta iota zeta; rewrite ?E4; [| reflexivity].
  destruct (f5 =? -1) eqn:E5; cbv beta iota zeta; rewrite ?E5; [| reflexivity].
  destruct (f6 =? -1) eqn:E6; cbv beta iota zeta; rewrite ?E6; [| reflexivity].
  destruct (f7 =? -1) eqn:E7; cbv beta iota zeta; [| reflexivity].
  apply Z.eqb_eq in E7 as ->. reflexivity.
Qed.

Lemma first_found_at ms s last i m :
  ms !! i = Some m -> occurs m s ->
  (forall j m', (j < i)%nat -> ms !! j = Some m' -> ~ occurs m' s) ->
  exists k, first_found ms s last = (Z.of_nat k, Py.len m) /\ first_at m s k.
Proof.
  revert last i. induction ms as [|m0 ms IH]; intros last i Hi Hocc Hbefore;
    [discriminate |].
  destruct i as [|i]; simpl in *.
  - injection Hi as ->. destruct (find_present _ _ Hocc) as (k & E & Hk).
    exists k. rewrite E.
    destruct (Z.eqb_spec (Z.of_nat k) (-1)); [lia | now split].
  - rewrite (find_absent s m0); [| apply (Hbefore 0%nat); [lia | reflexivity]].
    simpl. apply (IH _ i Hi Hocc). intros j m' Hj Hm'.
    apply (Hbefore (S j)); [lia | exact Hm'].
Qed.

Lemma first_found_none ms s last :
  fst (first_found ms s last) = -1 <-> forall m, m ∈ ms -> ~ occurs m s.
Proof.
  revert last. induction ms as [|m0 ms IH]; intros last; simpl.
  - split; [intros _ m Hm; inversion Hm | reflexivity].
  - destruct (Z.eqb_spec (Py.find s m0) (-1)) as [E | N].
    + rewrite IH. split.
      * intros H m Hm. apply elem_of_cons in Hm as [-> | Hm]; [| now apply H].
        intros Hocc. destruct (find_present _ _ Hocc) as (k & E' & _). lia.
      * intros H m Hm. apply H. now apply elem_of_cons; right.
    + simpl. split; [contradiction |]. intros H. exfalso.
      apply (H m0); [apply elem_of_cons; now left | now apply find_found].
Qed.

Lemma first_found_some ms s last :
  fst (first_found ms s last) <> -1 ->
  exists i m k,
    ms !! i = Some m /\ first_found ms s last = (Z.of_nat k, Py.len m)
    /\ first_at m s k
    /\ forall j m', (j < i)%nat -> ms !! j = Some m' -> ~ occurs m' s.
Proof.
  revert last. induction ms as [|m0 ms IH]; intros last; simpl;
    [contradiction |].
  destruct (Z.eqb_spec (Py.find s m0) (-1)) as [E | N].
  - intros H. destruct (IH _ H) as (i & m & k & Hi & Hf & Hk & Hb).
    exists (S i), m, k. repeat split; try assumption; try apply Hk.
    intros [|j] m' Hj Hm'; simpl in Hm'.
    + injection Hm' as <-. intros Hocc.
      destruct (find_present _ _ Hocc) as (k' & E' & _). lia.
    + apply (Hb j); [lia | exact Hm'].
  - intros _. destruct (find_present s m0 (find_found _ _ N)) as (k & E & Hk).
    exists 0%nat, m0, k. rewrite E. repeat split; try apply Hk.
    intros j m' Hj. lia.
Qed.

Lemma marker_length m : m ∈ markers -> 3 <= Py.len m.
Proof.
  unfold markers. rewrite !elem_of_cons, elem_of_nil.
  intros [-> | [-> | [-> | [-> | [-> | [-> | [-> | []]]]]]]]; vm_compute;
    discriminate.
Qed.

(** Where the opening marker lies when one is found. *)
Lemma opening_range raw start l1 :
  opening raw = (start, l1) -> start <> -1 ->
  0 <= start /\ 3 <= l1 /\ start + l1 <= Py.len raw.
Proof.
  rewrite opening_first_found. intros E N.
  destruct (first_found_some markers raw 0) as (i & m & k & Hi & Hf & Hk & _);
    [now rewrite E |].
  rewrite E in Hf. injection Hf as -> ->.
  destruct Hk as (_ & Hk & _). apply occurs_at_bound in Hk.
  split; [lia |]. split.
  - apply marker_length. eapply list_elem_of_lookup_2. exact Hi.
  - unfold Py.len. lia.
Qed.

End Opening.

(** ** Slices and stripping *)

Section Slices.

Implicit Types (s t sub head mid tail : string) (c : ascii) (a e n k : nat).

Lemma adjust_nonneg (i m : Z) : 0 <= i -> Py.adjust i m = i.
Proof. unfold Py.adjust. intros H. destruct (Z.ltb_spec i 0); [lia | reflexivity]. Qed.

Lemma slice_inside s a e :
  (a <= String.length s)%nat -> (e <= String.length s)%nat ->
  Py.slice s (Z.of_nat a) (Z.of_nat e) = Py.stake (e - a) (Py.sdrop a s).
Proof.
  intros Ha He. unfold Py.slice, Py.len.
  rewrite !adjust_nonneg by lia. rewrite !Z.min_l by lia.
  rewrite Nat2Z.id. f_equal. lia.
Qed.

(** The slice from the end of [head] to the start of [tail]. *)
Lemma slice_between head mid tail :
  Py.slice (head ++ mid ++ tail)
    (Py.len head) (Py.len head + Py.len mid) = mid.
Proof.
  unfold Py.len. rewrite <- Nat2Z.inj_add.
  rewrite slice_inside by (rewrite !length_app; lia).
  rewrite sdrop_app.
  replace (String.length head + String.length mid - String.length head)%nat
    with (String.length mid) by lia.
  apply stake_app.
Qed.

Lemma length_stake_le n s : (String.length (Py.stake n s) <= n)%nat.
Proof.
  revert s; induction n as [|n IH]; intros [|c s]; simpl; try lia.
  specialize (IH s). lia.
Qed.

Lemma occurs_at_of_stake sub s n k :
  occurs_at sub (Py.stake n s) k ->
  occurs_at sub s k /\ (k + String.length sub <= n)%nat.
Proof.
  intros H. split.
  - rewrite <- (stake_sdrop n s). now apply occurs_at_extend.
  - apply occurs_at_bound in H. pose proof (length_stake_le n s). lia.
Qed.

Lemma all_space_nil : all_space "".
Proof. intros [|c' pre] c suf E; discriminate. Qed.

Lemma all_space_cons c s :
  Py.isspace c = true -> all_space s -> all_space (String c s).
Proof.
  intros Hc Hs [|c' pre] d suf E; simpl in E; injection E as -> E.
  - exact Hc.
  - eapply Hs. exact E.
Qed.

Lemma lstrip_spec s :
  exists l, s = l ++ Py.lstrip s /\ all_space l
            /\ forall c t, Py.lstrip s = String c t -> Py.isspace c = false.
Proof.
  induction s as [|c s (l & E & Hl & Hhead)]; simpl.
  - exists "". split; [reflexivity |]. split; [apply all_space_nil | discriminate].
  - destruct (Py.isspace c) eqn:Hc.
    + exists (String c l). simpl. split; [now rewrite <- E |].
      split; [now apply all_space_cons | exact Hhead].
    + exists "". split; [reflexivity |]. split; [apply all_space_nil |].
      now intros c' t [= <- _].
Qed.

Lemma rstrip_spec s :
  exists r, s = Py.rstrip s ++ r /\ all_space r
            /\ forall t c, Py.rstrip s = t ++ String c "" -> Py.isspace c = false.
Proof.
  induction s as [|c s (r & E & Hr & Hlast)]; simpl.
  - exists "". split; [reflexivity |]. split; [apply all_space_nil |].
    intros [|c' t] c E; discriminate.
  - destruct (Py.rstrip s) as [|d u] eqn:Hu.
    + simpl in E. subst r. destruct (Py.isspace c) eqn:Hc.
      * exists (String c s). split; [reflexivity |].
        split; [now apply all_space_cons |].
        intros [|c' t] c0 E; discriminate.
      * exists s. split; [reflexivity |]. split; [exact Hr |].
        intros [|c' [|c'' t]] c0 E; simpl in E; try discriminate.
        now injection E as <-.
    + exists r. simpl. split; [now rewrite E |]. split; [exact Hr |].
      intros [|c' t] c0 E0; simpl in E0; [discriminate |].
      injection E0 as _ E0. now apply (Hlast t).
Qed.

(** [strip] keeps one contiguous part of the string: what it drops on
    either side is white space, and what it keeps neither starts nor ends
    with white space. *)
Lemma strip_spec s :
  exists l r,
    s = l ++ Py.strip s ++ r /\ all_space l /\ all_space r
    /\ (forall c t, Py.strip s = String c t -> Py.isspace c = false)
    /\ (forall t c, Py.strip s = t ++ String c "" -> Py.isspace c = false).
Proof.
  unfold Py.strip.
  destruct (lstrip_spec s) as (l & El & Hl & Hhead).
  destruct (rstrip_spec (Py.lstrip s)) as (r & Er & Hr & Hlast).
  exists l, r. split; [now rewrite <- Er |].
  split; [exact Hl |]. split; [exact Hr |]. split; [| exact Hlast].
  intros c t E. rewrite E in Er. destruct (Py.lstrip s) as [|c' t'] eqn:Hs;
    simpl in Er; [discriminate |].
  injection Er as -> _. now apply (Hhead c t').
Qed.

Lemma occurs_strip sub s : occurs sub (Py.strip s) -> occurs sub s.
Proof.
  intros [k Hk]. destruct (strip_spec s) as (l & r & E & _).
  exists (String.length l + k)%nat. rewrite E.
  apply occurs_at_skip. now apply occurs_at_extend.
Qed.

End Slices.

(** ** Running the method *)

Section Runs.

Implicit Types (raw path content : string) (w : world) (start : Z) (a e k : nat).

Lemma closing_found raw start (l1 : Z) a e :
  start + l1 = Z.of_nat a -> first_from "```" raw a e ->
  closing raw start l1 = Z.of_nat e.
Proof.
  intros Ea He. unfold closing. rewrite Ea.
  destruct (find_from_spec raw "```" a) as [[_ N] | (k & -> & Hk)].
  - destruct He as (Hae & Hocc & _). now apply N in Hocc.
  - rewrite (first_from_unique _ _ _ _ _ Hk He).
    destruct (Z.eqb_spec (Z.of_nat e) (-1)); [lia | reflexivity].
Qed.

Lemma closing_missing raw start (l1 : Z) a :
  start + l1 = Z.of_nat a ->
  (forall k, (a <= k)%nat -> ~ occurs_at "```" raw k) ->
  closing raw start l1 = Py.len raw - 1.
Proof.
  intros Ea N. unfold closing. rewrite Ea.
  destruct (find_from_spec raw "```" a) as [[-> _] | (k & _ & Hak & Hk & _)].
  - reflexivity.
  - now apply N in Hk.
Qed.

Lemma closing_cases raw start (l1 : Z) a :
  start + l1 = Z.of_nat a ->
  (exists e, first_from "```" raw a e /\ closing raw start l1 = Z.of_nat e)
  \/ ((forall k, (a <= k)%nat -> ~ occurs_at "```" raw k)
      /\ closing raw start l1 = Py.len raw - 1).
Proof.
  intros E. destruct (find_from_spec raw "```" a) as [[_ N] | (k & _ & Hk)].
  - right. split; [exact N | now apply (closing_missing _ _ _ a)].
  - left. exists k. split; [exact Hk | now apply (closing_found _ _ _ a)].
Qed.

Lemma closing_range raw start (l1 : Z) :
  0 <= start -> 3 <= l1 -> start + l1 <= Py.len raw ->
  0 <= closing raw start l1 <= Py.len raw.
Proof.
  intros H0 H3 Hlen.
  destruct (closing_cases raw start l1 (Z.to_nat (start + l1)))
    as [(e & (_ & He & _) & ->) | [_ ->]]; try lia.
  apply occurs_at_bound in He. unfold Py.len. simpl in He. lia.
Qed.

Lemma with_open_w_write path content w :
  path ∉ denied w ->
  with_open_w path (fun file => write file content) w
  = (Returned tt, overwritten w path content).
Proof.
  intros Hw. unfold with_open_w, open_w.
  destruct (decide (path ∈ denied w)) as [Hd | _]; [contradiction |].
  unfold write, close, overwritten. simpl.
  rewrite lookup_insert_eq, insert_insert_eq. simpl.
  now rewrite <- !(assoc_L (++)).
Qed.

Lemma with_open_w_denied path content w :
  path ∈ denied w ->
  with_open_w path (fun file => write file content) w
  = (Raised (OSError path), w).
Proof.
  intros Hw. unfold with_open_w, open_w.
  destruct (decide (path ∈ denied w)) as [_ | Hd]; [reflexivity | contradiction].
Qed.

(** No opening marker: the sentence is returned and nothing is touched. *)
Lemma run_failure raw path w :
  fst (opening raw) = -1 ->
  write_script_to_file raw path w = (Returned failure_message, w).
Proof.
  unfold write_script_to_file. destruct (opening raw) as [start l1]. simpl.
  intros ->. reflexivity.
Qed.

(** An opening marker and a path that can be opened: one overwrite with
    the text kept, which is also returned. *)
Lemma run_success raw path w start (l1 : Z) :
  opening raw = (start, l1) -> start <> -1 -> path ∉ denied w ->
  let content := extracted raw start l1 (closing raw start l1) in
  write_script_to_file raw path w
  = (Returned content, overwritten w path content).
Proof.
  intros E N Hw content. unfold write_script_to_file. rewrite E.
  destruct (opening_range _ _ _ E N) as (H0 & H3 & Hlen).
  pose proof (closing_range raw start l1 H0 H3 Hlen) as Hc.
  destruct (Z.eqb_spec start (-1)) as [| _]; [contradiction |].
  destruct (Z.eqb_spec (closing raw start l1) (-1)) as [Hm | _]; [lia |].
  simpl. unfold bind. fold content.
  now rewrite with_open_w_write by exact Hw.
Qed.

(** An opening marker and a path that [open] refuses: the fault of [open]
    leaves the method, and nothing is touched. *)
Lemma run_denied raw path w start (l1 : Z) :
  opening raw = (start, l1) -> start <> -1 -> path ∈ denied w ->
  write_script_to_file raw path w = (Raised (OSError path), w).
Proof.
  intros E N Hw. unfold write_script_to_file. rewrite E.
  destruct (opening_range _ _ _ E N) as (H0 & H3 & Hlen).
  pose proof (closing_range raw start l1 H0 H3 Hlen) as Hc.
  destruct (Z.eqb_spec start (-1)) as [| _]; [contradiction |].
  destruct (Z.eqb_spec (closing raw start l1) (-1)) as [Hm | _]; [lia |].
  simpl. unfold bind.
  now rewrite with_open_w_denied by exact Hw.
Qed.

End Runs.

(** ** Marker precedence *)

Section Precedence.

Implicit Types (raw m : string) (i j k : nat).

Lemma not_occurs_by_find raw m : Py.find raw m = -1 -> ~ occurs m raw.
Proof.
  intros E H. destruct (find_present _ _ H) as (k & E' & _). lia.
Qed.

Lemma occurs_by_decide raw m k : occurs_atb m raw k = true -> occurs m raw.
Proof. intros H. exists k. now apply occurs_at_decide. Qed.

Lemma opening_list_order raw :
  fst (opening raw) <> -1 ->
  list_order_rule raw (fst (opening raw)) (snd (opening raw)).
Proof.
  rewrite opening_first_found. intros N.
  destruct (first_found_some _ _ _ N) as (i & m & k & Hi & -> & Hk & Hb).
  now exists i, m, k.
Qed.

Lemma opening_none raw :
  fst (opening raw) = -1 <-> forall m, m ∈ markers -> ~ occurs m raw.
Proof. rewrite opening_first_found. apply first_found_none. Qed.

End Precedence.

(** ** The text kept never holds a fence *)

Section Content.

Implicit Types (raw path : string) (w : world) (start : Z) (a e k : nat).

Lemma slice_shape raw (lo hi : Z) :
  0 <= lo <= Py.len raw ->
  exists n, Py.slice raw lo hi = Py.stake n (Py.sdrop (Z.to_nat lo) raw).
Proof.
  intros H. unfold Py.slice. rewrite (adjust_nonneg lo) by lia.
  rewrite (Z.min_l lo) by lia. eexists. reflexivity.
Qed.

Lemma content_no_fence raw start (l1 : Z) :
  opening raw = (start, l1) -> start <> -1 ->
  ~ occurs "```" (extracted raw start l1 (closing raw start l1)).
Proof.
  intros E N Hocc.
  destruct (opening_range _ _ _ E N) as (H0 & H3 & Hlen).
  apply occurs_strip in Hocc as [k Hk].
  assert (Z.to_nat (start + l1) <= String.length raw)%nat as Ha
    by (unfold Py.len in Hlen; lia).
  destruct (closing_cases raw start l1 (Z.to_nat (start + l1)))
    as [(e & (Hae & He & Hmin) & Ee) | [Hnone Ee]]; try lia; rewrite Ee in Hk.
  - pose proof (occurs_at_bound _ _ _ He) as Hb.
    replace (start + l1) with (Z.of_nat (Z.to_nat (start + l1))) in Hk by lia.
    rewrite slice_inside in Hk by lia.
    apply occurs_at_of_stake in Hk as [Hk Hin].
    apply occurs_at_sdrop in Hk; [| exact Ha].
    simpl in Hin.
    apply (Hmin (Z.to_nat (start + l1) + k)%nat); [lia | lia | exact Hk].
  - destruct (slice_shape raw (start + l1) (Py.len raw - 1)) as [n En]; [lia |].
    rewrite En in Hk. apply occurs_at_of_stake in Hk as [Hk _].
    apply occurs_at_sdrop in Hk; [| exact Ha].
    apply (Hnone (Z.to_nat (start + l1) + k)%nat); [lia | exact Hk].
Qed.

Lemma failure_message_has_fence : occurs "```" failure_message.
Proof. apply (occurs_by_decide _ _ 40). vm_compute. reflexivity. Qed.

Lemma content_not_failure_message raw start (l1 : Z) :
  opening raw = (start, l1) -> start <> -1 ->
  extracted raw start l1 (closing raw start l1) <> failure_message.
Proof.
  intros E N Heq. apply (content_no_fence raw start l1 E N).
  rewrite Heq. apply failure_message_has_fence.
Qed.

Lemma fence_in_marker m : m ∈ markers -> m <> "Action:" -> exists suf, m = "```" ++ suf.
Proof.
  unfold markers. rewrite !elem_of_cons, elem_of_nil.
  intros [-> | [-> | [-> | [-> | [-> | [-> | [-> | []]]]]]]] Hm;
    try contradiction; eexists; reflexivity.
Qed.

Lemma no_marker_iff raw :
  (forall m, m ∈ markers -> ~ occurs m raw)
  <-> ~ occurs "```" raw /\ ~ occurs "Action:" raw.
Proof.
  split.
  - intros H. split; apply H; unfold markers; rewrite !elem_of_cons; tauto.
  - intros [Hf Ha] m Hm [k Hk].
    destruct (string_dec m "Action:") as [-> | Hne]; [apply Ha; now exists k |].
    destruct (fence_in_marker m Hm Hne) as [suf ->].
    apply Hf. exists k. destruct Hk as (pre & suf' & -> & L).
    exists pre, (suf ++ suf'). split; [now rewrite app_assoc | exact L].
Qed.

End Content.

Section Effects.

Implicit Types (raw path content : string) (w : world) (start : Z) (a e k : nat).

Lemma strip_stripped_of s : stripped_of s (Py.strip s).
Proof. exact (strip_spec s). Qed.

Lemma writes_overwritten w path content :
  writes (trace (overwritten w path content)) = S (writes (trace w)).
Proof.
  unfold overwritten. simpl. induction (trace w) as [|ev t IH]; simpl.
  - reflexivity.
  - destruct ev; simpl; now rewrite IH.
Qed.

Lemma files_overwritten w path content :
  files (overwritten w path content) !! path = Some content.
Proof. unfold overwritten. simpl. apply lookup_insert_eq. Qed.

Lemma files_overwritten_other w path content p :
  p <> path -> files (overwritten w path content) !! p = files w !! p.
Proof. intros H. unfold overwritten. simpl. now apply lookup_insert_ne. Qed.

Lemma overwritten_twice w path content :
  files (overwritten (overwritten w path content) path content)
  = files (overwritten w path content).
Proof. unfold overwritten. simpl. apply insert_insert_eq. Qed.

Lemma not_occurs_from_by_find raw sub a :
  Py.find_from raw sub (Z.of_nat a) = -1 ->
  forall k, (a <= k)%nat -> ~ occurs_at sub raw k.
Proof.
  intros E. destruct (find_from_spec raw sub a) as [[_ N] | (k & E' & _)];
    [exact N | lia].
Qed.

(** With no fence after the opening marker, the text kept stops one
    character short of the end. *)
Lemma unclosed_content raw start (l1 : Z) a :
  start + l1 = Z.of_nat a ->
  (forall k, (a <= k)%nat -> ~ occurs_at "```" raw k) ->
  extracted raw start l1 (closing raw start l1)
  = Py.strip (Py.slice raw (start + l1) (Py.len raw - 1)).
Proof.
  intros Ea Hnone. unfold extracted.
  now rewrite (closing_missing raw start l1 a Ea Hnone).
Qed.

Lemma some_marker_found raw :
  (exists m, m ∈ markers /\ occurs m raw) -> fst (opening raw) <> -1.
Proof.
  intros (m & Hm & Hocc) E. now apply (proj1 (opening_none raw) E m Hm).
Qed.

Lemma between_fences raw start (l1 : Z) a e :
  start + l1 = Z.of_nat a -> first_from "```" raw a e ->
  fenced_content raw a (extracted raw start l1 (closing raw start l1)).
Proof.
  intros Ea He. rewrite (closing_found raw start l1 a e Ea He).
  pose proof He as (Hae & (pre & suf & Eraw & Lpre) & Hmin).
  exists (Py.stake a pre), (Py.sdrop a pre), suf.
  assert (String.length (Py.stake a pre) = a) as Lh
    by (apply length_stake; lia).
  assert (String.length (Py.stake a pre) + String.length (Py.sdrop a pre) = e)%nat
    as Le by (rewrite Lh, length_sdrop; lia).
  assert (raw = Py.stake a pre ++ Py.sdrop a pre ++ "```" ++ suf) as Esplit
    by (now rewrite <- app_assoc, stake_sdrop).
  split; [exact Esplit |]. split; [exact Lh |]. split; [now rewrite Le |].
  unfold extracted.
  replace (start + l1) with (Py.len (Py.stake a pre))
    by (unfold Py.len; lia).
  replace (Z.of_nat e)
    with (Py.len (Py.stake a pre) + Py.len (Py.sdrop a pre))
    by (unfold Py.len; lia).
  rewrite Esplit, slice_between. apply strip_stripped_of.
Qed.

End Effects.

(** ** Running the method with the encoding fault *)

Section EncodedRuns.

Variable encodes : ascii -> bool.

Implicit Types (raw path content s t : string) (w : world) (start : Z) (k : nat).

Lemma encodable_app s t :
  Encoded.encodable encodes (s ++ t)
  = Encoded.encodable encodes s && Encoded.encodable encodes t.
Proof.
  induction s as [|c s IH]; simpl; [reflexivity |].
  now rewrite IH, andb_assoc.
Qed.

(** A part of an encodable text is encodable. *)
Lemma encodable_part s raw k :
  occurs_at s raw k ->
  Encoded.encodable encodes raw = true -> Encoded.encodable encodes s = true.
Proof.
  intros (pre & suf & -> & _). rewrite !encodable_app, !andb_true_iff.
  tauto.
Qed.

(** The text kept is a part of the input that starts at or after [lo]. *)
Lemma strip_slice_part raw (lo hi : Z) :
  0 <= lo <= Py.len raw ->
  exists k, occurs_at (Py.strip (Py.slice raw lo hi)) raw k
            /\ lo <= Z.of_nat k.
Proof.
  intros Hlo. destruct (slice_shape raw lo hi Hlo) as [n En]. rewrite En.
  set (t := Py.sdrop (Z.to_nat lo) raw).
  destruct (strip_spec (Py.stake n t)) as (l & r & E & _).
  remember (Py.strip (Py.stake n t)) as s0 eqn:Hs0.
  assert (Z.to_nat lo <= String.length raw)%nat as Ha
    by (unfold Py.len in Hlo; lia).
  exists (Z.to_nat lo + String.length l)%nat. split; [| lia].
  apply occurs_at_sdrop; [exact Ha |]. fold t.
  rewrite <- (stake_sdrop n t). apply occurs_at_extend.
  exists l, r. split; [exact E | reflexivity].
Qed.

Lemma kept_text_at raw start (l1 : Z) :
  opening raw = (start, l1) ->
  kept_text raw = extracted raw start l1 (closing raw start l1).
Proof. intros E. unfold kept_text. now rewrite E. Qed.

Lemma kept_text_part raw :
  fst (opening raw) <> -1 -> exists k, occurs_at (kept_text raw) raw k.
Proof.
  intros N. destruct (opening raw) as [start l1] eqn:E. simpl in N.
  rewrite (kept_text_at raw start l1 E).
  destruct (opening_range _ _ _ E N) as (H0 & H3 & Hlen).
  destruct (strip_slice_part raw (start + l1) (closing raw start l1))
    as (k & Hk & _); [lia | now exists k].
Qed.

Lemma encoded_write_done path content w :
  path ∉ denied w -> Encoded.encodable encodes content = true ->
  Encoded.with_open_w path (fun file => Encoded.write encodes file content) w
  = (Encoded.Returned tt, overwritten w path content).
Proof.
  intros Hw He. unfold Encoded.with_open_w, Encoded.open_w.
  destruct (decide (path ∈ denied w)) as [Hd | _]; [contradiction |].
  unfold Encoded.write. rewrite He.
  unfold Encoded.close, overwritten. simpl.
  rewrite lookup_insert_eq, insert_insert_eq. simpl.
  now rewrite <- !(assoc_L (++)).
Qed.

Lemma encoded_write_fault path content w :
  path ∉ denied w -> Encoded.encodable encodes content = false ->
  Encoded.with_open_w path (fun file => Encoded.write encodes file content) w
  = (Encoded.Raised (Encoded.UnicodeEncodeError content), truncated w path).
Proof.
  intros Hw He. unfold Encoded.with_open_w, Encoded.open_w.
  destruct (decide (path ∈ denied w)) as [Hd | _]; [contradiction |].
  unfold Encoded.write. rewrite He.
  unfold Encoded.close, truncated. simpl.
  now rewrite <- !(assoc_L (++)).
Qed.

Lemma encoded_write_denied path content w :
  path ∈ denied w ->
  Encoded.with_open_w path (fun file => Encoded.write encodes file content) w
  = (Encoded.Raised (Encoded.OSError path), w).
Proof.
  intros Hd. unfold Encoded.with_open_w, Encoded.open_w.
  destruct (decide (path ∈ denied w)) as [_ | Hw]; [reflexivity | contradiction].
Qed.

Lemma encoded_run_failure raw path w :
  fst (opening raw) = -1 ->
  Encoded.write_script_to_file encodes raw path w
  = (Encoded.Returned failure_message, w).
Proof.
  unfold Encoded.write_script_to_file.
  destruct (opening raw) as [start l1]. simpl. intros ->. reflexivity.
Qed.

(** With an opening marker, the call reaches the [with] block. *)
Lemma encoded_run_marker raw path w :
  fst (opening raw) <> -1 ->
  Encoded.write_script_to_file encodes raw path w
  = Encoded.bind
      (Encoded.with_open_w path
         (fun file => Encoded.write encodes file (kept_text raw)))
      (fun _ => Encoded.ret (kept_text raw)) w.
Proof.
  intros N. unfold Encoded.write_script_to_file, kept_text.
  destruct (opening raw) as [start l1] eqn:E. simpl in N.
  destruct (opening_range _ _ _ E N) as (H0 & H3 & Hlen).
  pose proof (closing_range raw start l1 H0 H3 Hlen) as Hc.
  destruct (Z.eqb_spec start (-1)) as [| _]; [contradiction |].
  destruct (Z.eqb_spec (closing raw start l1) (-1)) as [Hm | _]; [lia |].
  reflexivity.
Qed.

Lemma encoded_run_success raw path w :
  fst (opening raw) <> -1 -> path ∉ denied w ->
  Encoded.encodable encodes (kept_text raw) = true ->
  Encoded.write_script_to_file encodes raw path w
  = (Encoded.Returned (kept_text raw), overwritten w path (kept_text raw)).
Proof.
  intros N Hw He. rewrite (encoded_run_marker raw path w N).
  unfold Encoded.bind. now rewrite (encoded_write_done _ _ _ Hw He).
Qed.

Lemma encoded_run_fault raw path w :
  fst (opening raw) <> -1 -> path ∉ denied w ->
  Encoded.encodable encodes (kept_text raw) = false ->
  Encoded.write_script_to_file encodes raw path w
  = (Encoded.Raised (Encoded.UnicodeEncodeError (kept_text raw)),
     truncated w path).
Proof.
  intros N Hw He. rewrite (encoded_run_marker raw path w N).
  unfold Encoded.bind. now rewrite (encoded_write_fault _ _ _ Hw He).
Qed.

(** When the text kept can be encoded, the method with the encoding
    fault does what the method without it does. *)
Lemma encoded_agrees raw path w :
  Encoded.encodable encodes (kept_text raw) = true ->
  Encoded.write_script_to_file encodes raw path w
  = (embed_outcome (fst (write_script_to_file raw path w)),
     snd (write_script_to_file raw path w)).
Proof.
  intros He. destruct (opening raw) as [start l1] eqn:E.
  destruct (Z.eq_dec start (-1)) as [-> | N].
  - assert (fst (opening raw) = -1) as E1 by now rewrite E.
    now rewrite (encoded_run_failure raw path w E1), (run_failure raw path w E1).
  - assert (fst (opening raw) <> -1) as N1 by now rewrite E.
    destruct (decide (path ∈ denied w)) as [Hd | Hw].
    + rewrite (run_denied raw path w _ _ E N Hd).
      rewrite (encoded_run_marker raw path w N1). unfold Encoded.bind.
      now rewrite (encoded_write_denied _ _ _ Hd).
    + rewrite (run_success raw path w _ _ E N Hw).
      rewrite (encoded_run_success raw path w N1 Hw He).
      now rewrite (kept_text_at raw start l1 E).
Qed.

End EncodedRuns.

(** ** The properties *)

(** C1. Whenever one of the seven opening markers occurs in the text, the
    marker that decides is the first one of the list ["```python"],
    ["Action:"], ["```bash"], ["```markdown"], ["```makefile"],
    ["```text"], ["```"] that occurs anywhere in the text: [start_index]
    is the leftmost offset of that marker and [l1] is its length,
    wherever the markers listed after it occur; the call then keeps the
    text cut with this pair. *)
Theorem opening_by_list_order (raw : string) (i : nat) (m : string) :
  markers !! i = Some m ->
  occurs m raw ->
  (forall j m', (j < i)%nat -> markers !! j = Some m' -> ~ occurs m' raw) ->
  exists k,
    opening raw = (Z.of_nat k, Py.len m) /\ first_at m raw k
    /\ forall path w, path ∉ denied w ->
         fst (write_script_to_file raw path w)
         = Returned (extracted raw (Z.of_nat k) (Py.len m)
                       (closing raw (Z.of_nat k) (Py.len m))).
Proof.
  intros Hi Hocc Hbefore. rewrite opening_first_found.
  destruct (first_found_at markers raw 0 i m Hi Hocc Hbefore) as (k & E & Hk).
  exists k. split; [exact E |]. split; [exact Hk |].
  intros path w Hw. rewrite <- opening_first_found in E.
  rewrite (run_success raw path w _ _ E); [reflexivity | lia | exact Hw].
Qed.

Lemma opening_by_list_order_witness :
  markers !! 1%nat = Some "Action:"
  /\ occurs "Action:" raw_later_action
  /\ exists k,
       opening raw_later_action = (Z.of_nat k, 7)
       /\ first_at "Action:" raw_later_action k.
Proof.
  split; [reflexivity |].
  split; [apply (occurs_by_decide _ _ 19); vm_compute; reflexivity |].
  destruct (opening_by_list_order raw_later_action 1 "Action:")
    as (k & E & Hk & _).
  - reflexivity.
  - apply (occurs_by_decide _ _ 19). vm_compute. reflexivity.
  - intros [|j] m' Hj Hm'; [| lia]. injection Hm' as <-.
    apply not_occurs_by_find. vm_compute. reflexivity.
  - exists k. split; [exact E | exact Hk].
Defined.

(** C2, the property as the specification words it, refuted: in
    [raw_later_action] the marker ["```markdown"] starts at offset 0 and
    ["Action:"] at offset 19, yet the pair computed is [(19, 7)], which the
    leftmost-occurrence rule does not allow. *)
Lemma leftmost_marker_does_not_win :
  two_markers_apart raw_later_action
  /\ opening raw_later_action = (19, 7)
  /\ ~ leftmost_rule raw_later_action
        (fst (opening raw_later_action)) (snd (opening raw_later_action)).
Proof.
  assert (occurs_at "```markdown" raw_later_action 0) as H0
    by (apply occurs_at_decide; vm_compute; reflexivity).
  assert (occurs_at "Action:" raw_later_action 19) as H19
    by (apply occurs_at_decide; vm_compute; reflexivity).
  assert (opening raw_later_action = (19, 7)) as E
    by (vm_compute; reflexivity).
  split; [| split; [exact E |]].
  - exists "```markdown", "Action:", 0%nat, 19%nat.
    unfold markers. rewrite !elem_of_cons.
    repeat split; try exact H0; try exact H19; try discriminate; tauto.
  - rewrite E. simpl. intros (i & m & k & Hi & Hs & Hl & Hk & Hmin).
    assert (k = 19%nat) as -> by lia.
    destruct (Hmin 3%nat "```markdown" 0%nat eq_refl H0); lia.
Qed.

(** C2, amended. When two of the markers occur at different offsets, the
    pair [(start_index, l1)] follows the list order: it comes from the
    first marker of the list that occurs at all, at that marker's own
    leftmost offset. Offsets are compared between the occurrences of that
    one marker only, never between different markers. *)
Theorem first_listed_marker_wins (raw : string) :
  two_markers_apart raw ->
  list_order_rule raw (fst (opening raw)) (snd (opening raw)).
Proof.
  intros (m & m' & k & k' & Hm & _ & _ & Hk & _).
  apply opening_list_order. intros E.
  apply (proj1 (opening_none raw) E m Hm). now exists k.
Qed.

Lemma first_listed_marker_wins_witness :
  two_markers_apart raw_later_action
  /\ list_order_rule raw_later_action
       (fst (opening raw_later_action)) (snd (opening raw_later_action)).
Proof.
  assert (two_markers_apart raw_later_action) as H.
  { exists "```markdown", "Action:", 0%nat, 19%nat.
    unfold markers. rewrite !elem_of_cons.
    repeat split; try (apply occurs_at_decide; vm_compute; reflexivity);
      try discriminate; tauto. }
  split; [exact H | exact (first_listed_marker_wins raw_later_action H)].
Defined.

(** C3. When none of the seven opening markers occurs in the text (which
    is to say: neither ["```"] nor ["Action:"] occurs), the call returns
    the fixed sentence and leaves the world as it was: no file is opened
    or written. The sentence is returned in that case only. *)
Theorem failure_exactly_without_marker (raw path : string) (w : world) :
  ((forall m, m ∈ markers -> ~ occurs m raw)
   <-> ~ occurs "```" raw /\ ~ occurs "Action:" raw)
  /\ ((forall m, m ∈ markers -> ~ occurs m raw)
      <-> fst (write_script_to_file raw path w) = Returned failure_message)
  /\ (fst (write_script_to_file raw path w) = Returned failure_message ->
      snd (write_script_to_file raw path w) = w).
Proof.
  split; [apply no_marker_iff |].
  destruct (opening raw) as [start l1] eqn:E.
  destruct (Z.eq_dec start (-1)) as [-> | N].
  - assert (fst (opening raw) = -1) as E1 by now rewrite E.
    rewrite (run_failure raw path w E1). simpl.
    split; [| reflexivity]. split; [reflexivity |].
    intros _. now apply opening_none.
  - assert (~ forall m, m ∈ markers -> ~ occurs m raw) as Hsome.
    { intros H. apply opening_none in H. rewrite E in H. contradiction. }
    destruct (decide (path ∈ denied w)) as [Hd | Hw].
    + rewrite (run_denied raw path w _ _ E N Hd). simpl.
      split; [| discriminate]. split; [contradiction | discriminate].
    + rewrite (run_success raw path w _ _ E N Hw). simpl.
      pose proof (content_not_failure_message raw start l1 E N) as Hne.
      split; [split; [contradiction |] |]; intros [= H]; contradiction.
Qed.

(** C4, evaluated where the code departs from it. In [raw_unclosed] the
    marker ["```python"] is found at offset 0 and no fence follows it; the
    closing offset becomes [len - 1], the last character is left out, and
    the call returns and writes ["print(1"], while the stripped remainder
    of the text after the marker is ["print(1)"]. *)
Theorem unclosed_block_loses_last_character :
  opening raw_unclosed = (0, 9)
  /\ (forall k, (9 <= k)%nat -> ~ occurs_at "```" raw_unclosed k)
  /\ closing raw_unclosed 0 9 = Py.len raw_unclosed - 1
  /\ write_script_to_file raw_unclosed "out.py" world0
     = (Returned "print(1", overwritten world0 "out.py" "print(1")
  /\ Py.strip (Py.slice raw_unclosed 9 (Py.len raw_unclosed)) = "print(1)".
Proof.
  assert (opening raw_unclosed = (0, 9)) as E by (vm_compute; reflexivity).
  split; [exact E |].
  split; [apply not_occurs_from_by_find; vm_compute; reflexivity |].
  split; [vm_compute; reflexivity |].
  split; [| vm_compute; reflexivity].
  rewrite (run_success raw_unclosed "out.py" world0 0 9 E);
    [| discriminate | unfold world0; simpl; set_solver].
  assert (extracted raw_unclosed 0 9 (closing raw_unclosed 0 9) = "print(1")
    as -> by (vm_compute; reflexivity).
  reflexivity.
Qed.

(** C5. For the text [prefix ```python\nprint(1)\n``` suffix] and any
    path that can be opened, the call returns ["print(1)"] and the file at
    that path then holds exactly ["print(1)"]. *)
Theorem example_block_extracted (path : string) (w : world) :
  path ∉ denied w ->
  fst (write_script_to_file raw_example path w) = Returned "print(1)"
  /\ files (snd (write_script_to_file raw_example path w)) !! path
     = Some "print(1)".
Proof.
  intros Hw.
  assert (opening raw_example = (7, 9)) as E by (vm_compute; reflexivity).
  rewrite (run_success raw_example path w 7 9 E); [| discriminate | exact Hw].
  assert (extracted raw_example 7 9 (closing raw_example 7 9) = "print(1)")
    as -> by (vm_compute; reflexivity).
  split; [reflexivity | apply files_overwritten].
Qed.

Lemma example_block_extracted_witness :
  ("out.py" ∉ denied world0)
  /\ fst (write_script_to_file raw_example "out.py" world0) = Returned "print(1)"
  /\ files (snd (write_script_to_file raw_example "out.py" world0)) !! "out.py"
     = Some "print(1)".
Proof.
  assert ("out.py" ∉ denied world0) as H by (unfold world0; simpl; set_solver).
  split; [exact H | exact (example_block_extracted "out.py" world0 H)].
Defined.

(** C6, the property as the specification words it, refuted: the call on
    [raw_unclosed] succeeds, with one write, although no closing fence
    follows the opening marker, so what it keeps does not lie between the
    marker and a next fence. *)
Lemma success_without_closing_fence :
  opening raw_unclosed = (0, 9)
  /\ write_script_to_file raw_unclosed "out.py" world0
     = (Returned "print(1", overwritten world0 "out.py" "print(1")
  /\ forall content, ~ fenced_content raw_unclosed 9 content.
Proof.
  assert (opening raw_unclosed = (0, 9)) as E by (vm_compute; reflexivity).
  split; [exact E |]. split.
  - rewrite (run_success raw_unclosed "out.py" world0 0 9 E);
      [| discriminate | unfold world0; simpl; set_solver].
    assert (extracted raw_unclosed 0 9 (closing raw_unclosed 0 9) = "print(1")
      as -> by (vm_compute; reflexivity).
    reflexivity.
  - intros content (head & mid & tail & _ & _ & (Hge & Hocc & _) & _).
    revert Hocc. apply not_occurs_from_by_find with (a := 9%nat);
      [vm_compute; reflexivity | exact Hge].
Qed.

(** C6, amended. On every successful call in which a fence ["```"] occurs
    at or after the end of the opening marker, what is returned and what
    is written is the text between the end of that marker and the start
    of the first such fence, without its leading and trailing white
    space; the call performs one write, of that one block. *)
Theorem content_between_fences
    (raw path : string) (w : world) (start l1 : Z) (a e : nat) :
  opening raw = (start, l1) -> start <> -1 ->
  start + l1 = Z.of_nat a -> first_from "```" raw a e ->
  path ∉ denied w ->
  exists content,
    fenced_content raw a content
    /\ write_script_to_file raw path w
       = (Returned content, overwritten w path content)
    /\ files (overwritten w path content) !! path = Some content
    /\ writes (trace (overwritten w path content)) = S (writes (trace w)).
Proof.
  intros E N Ea He Hw.
  exists (extracted raw start l1 (closing raw start l1)).
  split; [now apply (between_fences raw start l1 a e) |].
  split; [now apply run_success |].
  split; [apply files_overwritten | apply writes_overwritten].
Qed.

Lemma content_between_fences_witness :
  opening raw_example = (7, 9)
  /\ first_from "```" raw_example 16 26
  /\ ("out.py" ∉ denied world0)
  /\ exists content,
       fenced_content raw_example 16 content
       /\ write_script_to_file raw_example "out.py" world0
          = (Returned content, overwritten world0 "out.py" content)
       /\ files (overwritten world0 "out.py" content) !! "out.py" = Some content
       /\ writes (trace (overwritten world0 "out.py" content))
          = S (writes (trace world0)).
Proof.
  assert (opening raw_example = (7, 9)) as E by (vm_compute; reflexivity).
  assert (first_from "```" raw_example 16 26) as He.
  { assert (Py.find_from raw_example "```" (Z.of_nat 16) = 26) as Ev
      by (vm_compute; reflexivity).
    destruct (find_from_spec raw_example "```" 16) as [[Ef _] | (k & Ef & Hk)];
      rewrite Ev in Ef; [discriminate |].
    assert (k = 26%nat) as -> by lia. exact Hk. }
  assert ("out.py" ∉ denied world0) as Hw by (unfold world0; simpl; set_solver).
  split; [exact E |]. split; [exact He |]. split; [exact Hw |].
  apply (content_between_fences raw_example "out.py" world0 7 9 16 26 E);
    [discriminate | reflexivity | exact He | exact Hw].
Defined.

(** C7. With a path that can be opened: when one of the markers occurs,
    the call opens the file once, writes once and closes it; the file then
    holds exactly the string the call returns, whatever it held before or
    whether it existed, and every other file is as it was. When no marker
    occurs the call changes nothing. *)
Theorem one_overwrite_on_success (raw path : string) (w : world) :
  path ∉ denied w ->
  ((exists m, m ∈ markers /\ occurs m raw) ->
   exists content,
     write_script_to_file raw path w
     = (Returned content, overwritten w path content)
     /\ trace (overwritten w path content)
        = (trace w ++ [Opened path; Written path content; Closed path])%list
     /\ writes (trace (overwritten w path content)) = S (writes (trace w))
     /\ files (overwritten w path content) !! path = Some content
     /\ forall p, p <> path ->
          files (overwritten w path content) !! p = files w !! p)
  /\ ((forall m, m ∈ markers -> ~ occurs m raw) ->
      write_script_to_file raw path w = (Returned failure_message, w)).
Proof.
  intros Hw. split.
  - intros Hsome. apply some_marker_found in Hsome.
    destruct (opening raw) as [start l1] eqn:E. simpl in Hsome.
    exists (extracted raw start l1 (closing raw start l1)).
    split; [now apply run_success |]. split; [reflexivity |].
    split; [apply writes_overwritten |].
    split; [apply files_overwritten |].
    intros p Hp. now apply files_overwritten_other.
  - intros Hnone. apply run_failure. now apply opening_none.
Qed.

Lemma one_overwrite_on_success_witness :
  ("out.py" ∉ denied world0)
  /\ exists content,
       write_script_to_file raw_example "out.py" world0
       = (Returned content, overwritten world0 "out.py" content)
       /\ writes (trace (overwritten world0 "out.py" content)) = 1%nat
       /\ files (overwritten world0 "out.py" content) !! "out.py"
          = Some content.
Proof.
  assert ("out.py" ∉ denied world0) as Hw by (unfold world0; simpl; set_solver).
  split; [exact Hw |].
  destruct (one_overwrite_on_success raw_example "out.py" world0 Hw)
    as [Hsuccess _].
  destruct Hsuccess as (content & Hrun & _ & Hwrites & Hfile & _).
  - exists "```python". split.
    + unfold markers. rewrite !elem_of_cons. tauto.
    + apply (occurs_by_decide _ _ 7). vm_compute. reflexivity.
  - exists content. split; [exact Hrun |]. split; [exact Hwrites | exact Hfile].
Defined.

(** C8. With a path that can be opened, a second call with the same text
    and path returns what the first returned and leaves every file as the
    first call left it; when a marker occurs the file holds the returned
    string once, not twice over. *)
Theorem second_call_repeats_first (raw path : string) (w : world) :
  path ∉ denied w ->
  let first := write_script_to_file raw path w in
  let second := write_script_to_file raw path (snd first) in
  fst second = fst first
  /\ files (snd second) = files (snd first)
  /\ exists s,
       fst first = Returned s
       /\ ((exists m, m ∈ markers /\ occurs m raw) ->
           files (snd second) !! path = Some s).
Proof.
  intros Hw. cbv zeta.
  destruct (opening raw) as [start l1] eqn:E.
  destruct (Z.eq_dec start (-1)) as [-> | N].
  - assert (fst (opening raw) = -1) as E1 by now rewrite E.
    rewrite (run_failure raw path w E1). simpl.
    rewrite (run_failure raw path w E1). simpl.
    split; [reflexivity |]. split; [reflexivity |].
    exists failure_message. split; [reflexivity |].
    intros Hsome. apply some_marker_found in Hsome. contradiction.
  - rewrite (run_success raw path w _ _ E N Hw). simpl.
    rewrite (run_success raw path (overwritten w path _) _ _ E N Hw). simpl.
    split; [reflexivity |]. split; [apply overwritten_twice |].
    eexists. split; [reflexivity |]. intros _.
    rewrite insert_insert_eq. apply lookup_insert_eq.
Qed.

Lemma second_call_repeats_first_witness :
  ("out.py" ∉ denied world0)
  /\ fst (write_script_to_file raw_example "out.py"
            (snd (write_script_to_file raw_example "out.py" world0)))
     = fst (write_script_to_file raw_example "out.py" world0)
  /\ files (snd (write_script_to_file raw_example "out.py"
                   (snd (write_script_to_file raw_example "out.py" world0))))
     = files (snd (write_script_to_file raw_example "out.py" world0)).
Proof.
  assert ("out.py" ∉ denied world0) as Hw by (unfold world0; simpl; set_solver).
  split; [exact Hw |].
  destruct (second_call_repeats_first raw_example "out.py" world0 Hw)
    as (Hret & Hfiles & _).
  split; [exact Hret | exact Hfiles].
Defined.

(** C9, the property as the specification words it, refuted: the path
    ["out.py"] can be opened and the text is a closed python block, yet
    with an encoding of the characters below 128 the call raises
    [UnicodeEncodeError] at [file.write], for the e acute of the text
    kept; the file, which held a text, has by then been truncated by
    [open], and nothing is written to it. *)
Lemma unencodable_text_raises :
  ("out.py" ∉ denied world_with_old)
  /\ kept_text raw_accented = accented_word
  /\ Encoded.write_script_to_file ascii_only raw_accented "out.py" world_with_old
     = (Encoded.Raised (Encoded.UnicodeEncodeError accented_word),
        truncated world_with_old "out.py")
  /\ files world_with_old !! "out.py" = Some "old text"
  /\ files (truncated world_with_old "out.py") !! "out.py" = Some ""
  /\ writes (trace (truncated world_with_old "out.py")) = 0%nat.
Proof.
  assert ("out.py" ∉ denied world_with_old) as Hw
    by (unfold world_with_old; simpl; set_solver).
  assert (kept_text raw_accented = accented_word) as Ek
    by (vm_compute; reflexivity).
  split; [exact Hw |]. split; [exact Ek |]. split; [| split; [| split]].
  - rewrite <- Ek. apply encoded_run_fault; [| exact Hw |].
    + vm_compute. discriminate.
    + vm_compute. reflexivity.
  - unfold world_with_old. simpl. apply lookup_singleton_eq.
  - unfold truncated. simpl. apply lookup_insert_eq.
  - reflexivity.
Qed.

(** C9, amended. With a path that can be opened, the call raises nothing
    whenever the text it keeps can be encoded in the text encoding of the
    file, and always when no marker occurs: it then returns a string,
    which is the fixed sentence with the world untouched when no marker
    occurs, and otherwise the text kept, after one open, one write of
    that whole string and one close. For this it is enough that the
    input itself can be encoded. When the text kept has a character the
    encoding lacks, [file.write] raises [UnicodeEncodeError] after [open]
    has truncated the file, and nothing is written. *)
Theorem encodable_outcome_is_returned
    (encodes : ascii -> bool) (raw path : string) (w : world) :
  path ∉ denied w ->
  ((forall m, m ∈ markers -> ~ occurs m raw) ->
   Encoded.write_script_to_file encodes raw path w
   = (Encoded.Returned failure_message, w))
  /\ ((exists m, m ∈ markers /\ occurs m raw) ->
      (Encoded.encodable encodes (kept_text raw) = true ->
       Encoded.write_script_to_file encodes raw path w
       = (Encoded.Returned (kept_text raw),
          overwritten w path (kept_text raw)))
      /\ (Encoded.encodable encodes (kept_text raw) = false ->
          Encoded.write_script_to_file encodes raw path w
          = (Encoded.Raised (Encoded.UnicodeEncodeError (kept_text raw)),
             truncated w path)))
  /\ (Encoded.encodable encodes raw = true ->
      exists s w1,
        Encoded.write_script_to_file encodes raw path w
        = (Encoded.Returned s, w1)).
Proof.
  intros Hw. split; [| split].
  - intros Hnone. apply encoded_run_failure. now apply opening_none.
  - intros Hsome. apply some_marker_found in Hsome. split; intros He.
    + now apply encoded_run_success.
    + now apply encoded_run_fault.
  - intros He. destruct (Z.eq_dec (fst (opening raw)) (-1)) as [E | N].
    + exists failure_message, w. now apply encoded_run_failure.
    + exists (kept_text raw), (overwritten w path (kept_text raw)).
      apply encoded_run_success; [exact N | exact Hw |].
      destruct (kept_text_part raw N) as [k Hk].
      exact (encodable_part encodes _ _ _ Hk He).
Qed.

Lemma encodable_outcome_is_returned_witness :
  ("out.py" ∉ denied world0)
  /\ Encoded.write_script_to_file ascii_only raw_example "out.py" world0
     = (Encoded.Returned (kept_text raw_example),
        overwritten world0 "out.py" (kept_text raw_example))
  /\ kept_text raw_example = "print(1)".
Proof.
  assert ("out.py" ∉ denied world0) as Hw by (unfold world0; simpl; set_solver).
  split; [exact Hw |]. split; [| vm_compute; reflexivity].
  destruct (encodable_outcome_is_returned ascii_only raw_example "out.py"
              world0 Hw) as (_ & Hsome & _).
  apply Hsome.
  - exists "```python". split.
    + unfold markers. rewrite !elem_of_cons. tauto.
    + apply (occurs_by_decide _ _ 7). vm_compute. reflexivity.
  - vm_compute. reflexivity.
Defined.

(** C10. When a fence ["```"] starts exactly where the opening marker
    ends, the search for the closing fence, which begins at that offset
    and not after it, finds it there: the call succeeds, returns the empty
    string and leaves the file empty. *)
Theorem adjacent_fence_gives_empty
    (raw path : string) (w : world) (start l1 : Z) (a : nat) :
  opening raw = (start, l1) -> start <> -1 ->
  start + l1 = Z.of_nat a -> occurs_at "```" raw a ->
  path ∉ denied w ->
  closing raw start l1 = start + l1
  /\ write_script_to_file raw path w = (Returned "", overwritten w path "")
  /\ files (overwritten w path "") !! path = Some "".
Proof.
  intros E N Ea Hocc Hw.
  assert (first_from "```" raw a a) as Hfirst
    by (split; [lia | split; [exact Hocc | intros; lia]]).
  assert (closing raw start l1 = start + l1) as Ec
    by (rewrite Ea; now apply (closing_found raw start l1 a a)).
  split; [exact Ec |]. split; [| apply files_overwritten].
  rewrite (run_success raw path w _ _ E N Hw).
  unfold extracted. rewrite Ec, Ea.
  pose proof (occurs_at_bound _ _ _ Hocc) as Hb.
  rewrite slice_inside by lia. rewrite Nat.sub_diag. reflexivity.
Qed.

Lemma adjacent_fence_gives_empty_witness :
  opening raw_adjacent = (0, 9)
  /\ occurs_at "```" raw_adjacent 9
  /\ ("out.py" ∉ denied world0)
  /\ closing raw_adjacent 0 9 = 9
  /\ write_script_to_file raw_adjacent "out.py" world0
     = (Returned "", overwritten world0 "out.py" "").
Proof.
  assert (opening raw_adjacent = (0, 9)) as E by (vm_compute; reflexivity).
  assert (occurs_at "```" raw_adjacent 9) as Hocc
    by (apply occurs_at_decide; vm_compute; reflexivity).
  assert ("out.py" ∉ denied world0) as Hw by (unfold world0; simpl; set_solver).
  split; [exact E |]. split; [exact Hocc |]. split; [exact Hw |].
  destruct (adjacent_fence_gives_empty raw_adjacent "out.py" world0 0 9 9 E)
    as (Hc & Hrun & _);
    [discriminate | reflexivity | exact Hocc | exact Hw |].
  split; [exact Hc | exact Hrun].
Defined.

(** ** Further properties of the method *)

Section Outcomes.

Implicit Types (raw path s : string) (w : world) (start : Z) (a e k : nat).

(** The three ways a call can end. *)
Lemma run_cases raw path w :
  (fst (opening raw) = -1
   /\ write_script_to_file raw path w = (Returned failure_message, w))
  \/ (exists start l1,
        opening raw = (start, l1) /\ start <> -1 /\ (path ∈ denied w)
        /\ write_script_to_file raw path w = (Raised (OSError path), w))
  \/ (exists start l1,
        opening raw = (start, l1) /\ start <> -1 /\ (path ∉ denied w)
        /\ write_script_to_file raw path w
           = (Returned (extracted raw start l1 (closing raw start l1)),
              overwritten w path
                (extracted raw start l1 (closing raw start l1)))).
Proof.
  destruct (opening raw) as [start l1] eqn:E.
  destruct (Z.eq_dec start (-1)) as [-> | N].
  - left. split; [reflexivity |]. apply run_failure. now rewrite E.
  - right. destruct (decide (path ∈ denied w)) as [Hd | Hw].
    + left. exists start, l1. repeat split; try assumption.
      now apply (run_denied raw path w start l1).
    + right. exists start, l1. repeat split; try assumption.
      now apply (run_success raw path w start l1).
Qed.

(** A returned string other than the sentence is the text kept. *)
Lemma returned_content raw path w s w1 :
  write_script_to_file raw path w = (Returned s, w1) ->
  s <> failure_message ->
  exists start l1,
    opening raw = (start, l1) /\ start <> -1 /\ (path ∉ denied w)
    /\ s = extracted raw start l1 (closing raw start l1)
    /\ w1 = overwritten w path s.
Proof.
  intros Hrun Hs.
  destruct (run_cases raw path w)
    as [[_ E] | [(st & l & _ & _ & _ & E) | (st & l & Eo & N & Hw & E)]];
    rewrite E in Hrun.
  - injection Hrun as <- _. contradiction.
  - discriminate.
  - injection Hrun as <- <-. exists st, l. now repeat split.
Qed.

Lemma example_run :
  write_script_to_file raw_example "out.py" world0
  = (Returned "print(1)", overwritten world0 "out.py" "print(1)").
Proof.
  assert (opening raw_example = (7, 9)) as E by (vm_compute; reflexivity).
  rewrite (run_success raw_example "out.py" world0 7 9 E);
    [| discriminate | unfold world0; simpl; set_solver].
  assert (extracted raw_example 7 9 (closing raw_example 7 9) = "print(1)")
    as -> by (vm_compute; reflexivity).
  reflexivity.
Qed.

Lemma example_not_sentence : "print(1)" <> failure_message.
Proof. discriminate. Qed.

Lemma lstrip_fixed s :
  (forall c t, s = String c t -> Py.isspace c = false) -> Py.lstrip s = s.
Proof.
  destruct s as [|c s]; simpl; [reflexivity |]. intros H.
  now rewrite (H c s eq_refl).
Qed.

Lemma rstrip_fixed s :
  (forall t c, s = t ++ String c "" -> Py.isspace c = false) ->
  Py.rstrip s = s.
Proof.
  induction s as [|c s IH]; simpl; [reflexivity |]. intros H.
  destruct s as [|d s].
  - simpl. now rewrite (H "" c eq_refl).
  - rewrite IH; [reflexivity |]. intros t c0 E.
    apply (H (String c t) c0). simpl. now rewrite E.
Qed.

Lemma strip_fixed s :
  (forall c t, s = String c t -> Py.isspace c = false) ->
  (forall t c, s = t ++ String c "" -> Py.isspace c = false) ->
  Py.strip s = s.
Proof.
  intros Hh Hl. unfold Py.strip. rewrite (lstrip_fixed s Hh).
  now apply rstrip_fixed.
Qed.

End Outcomes.

Section LastCharacter.

Implicit Types (raw s t u body : string) (c : ascii) (a n : nat).

Lemma last_character s : s <> "" -> exists body c, s = body ++ String c "".
Proof.
  induction s as [|c s IH]; [contradiction |]. intros _.
  destruct s as [|d s].
  - now exists "", c.
  - destruct IH as (body & c0 & E); [discriminate |].
    exists (String c body), c0. simpl. now rewrite E.
Qed.

Lemma stake_whole n s : (String.length s <= n)%nat -> Py.stake n s = s.
Proof.
  revert s; induction n as [|n IH]; intros [|c s]; simpl; intros H;
    try reflexivity; try lia.
  rewrite IH; [reflexivity | lia].
Qed.

Lemma sdrop_app_inside a s t :
  (a <= String.length s)%nat -> Py.sdrop a (s ++ t) = Py.sdrop a s ++ t.
Proof.
  revert s; induction a as [|a IH]; intros [|c s]; simpl; intros H;
    try reflexivity; try lia.
  apply IH. lia.
Qed.

Lemma lstrip_snoc_nonspace t c :
  Py.isspace c = false -> Py.lstrip (t ++ String c "") = Py.lstrip t ++ String c "".
Proof.
  intros Hc. induction t as [|d t IH]; simpl.
  - now rewrite Hc.
  - destruct (Py.isspace d); [exact IH | reflexivity].
Qed.

Lemma lstrip_snoc_space t c :
  Py.isspace c = true ->
  Py.lstrip (t ++ String c "")
  = match Py.lstrip t with
    | EmptyString => EmptyString
    | String _ _ => Py.lstrip t ++ String c ""
    end.
Proof.
  intros Hc. induction t as [|d t IH]; simpl.
  - now rewrite Hc.
  - destruct (Py.isspace d); [exact IH | reflexivity].
Qed.

Lemma rstrip_snoc_space u c :
  Py.isspace c = true -> Py.rstrip (u ++ String c "") = Py.rstrip u.
Proof.
  intros Hc. induction u as [|d u IH]; simpl.
  - now rewrite Hc.
  - now rewrite IH.
Qed.

Lemma rstrip_snoc_nonspace u c :
  Py.isspace c = false -> Py.rstrip (u ++ String c "") = u ++ String c "".
Proof.
  intros Hc. induction u as [|d u IH]; simpl.
  - now rewrite Hc.
  - rewrite IH. now destruct u.
Qed.

Lemma length_rstrip u : (String.length (Py.rstrip u) <= String.length u)%nat.
Proof.
  induction u as [|d u IH]; simpl; [lia |].
  destruct (Py.rstrip u) as [|e r].
  - destruct (Py.isspace d); simpl; lia.
  - simpl in *. lia.
Qed.

Lemma strip_snoc_space t c :
  Py.isspace c = true -> Py.strip (t ++ String c "") = Py.strip t.
Proof.
  intros Hc. unfold Py.strip. rewrite (lstrip_snoc_space t c Hc).
  destruct (Py.lstrip t) as [|d u] eqn:E; [reflexivity |].
  now apply rstrip_snoc_space.
Qed.

Lemma strip_snoc_nonspace t c :
  Py.isspace c = false -> Py.strip (t ++ String c "") <> Py.strip t.
Proof.
  intros Hc. unfold Py.strip. rewrite (lstrip_snoc_nonspace t c Hc).
  rewrite (rstrip_snoc_nonspace _ c Hc). intros E.
  pose proof (length_rstrip (Py.lstrip t)) as H.
  rewrite <- E, length_app in H. simpl in H. lia.
Qed.

(** The two slices of the fallback, on a text with a last character. *)
Lemma slice_to_end body c a :
  (a <= String.length body)%nat ->
  Py.slice (body ++ String c "") (Z.of_nat a) (Py.len (body ++ String c ""))
  = Py.sdrop a body ++ String c "".
Proof.
  intros Ha. unfold Py.len at 1.
  rewrite slice_inside by (rewrite ?length_app; simpl; lia).
  rewrite sdrop_app_inside by exact Ha.
  apply stake_whole. rewrite !length_app, length_sdrop. simpl. lia.
Qed.

Lemma slice_to_last body c a :
  (a <= String.length body)%nat ->
  Py.slice (body ++ String c "") (Z.of_nat a)
    (Py.len (body ++ String c "") - 1)
  = Py.sdrop a body.
Proof.
  intros Ha. unfold Py.len. rewrite length_app. simpl.
  replace (Z.of_nat (String.length body + 1) - 1)
    with (Z.of_nat (String.length body)) by lia.
  rewrite slice_inside by (rewrite ?length_app; simpl; lia).
  rewrite sdrop_app_inside by exact Ha.
  rewrite <- (length_sdrop a body). apply stake_app.
Qed.

Lemma slice_at_end raw (hi : Z) : Py.slice raw (Py.len raw) hi = "".
Proof.
  destruct (slice_shape raw (Py.len raw) hi) as [n ->]; [unfold Py.len; lia |].
  unfold Py.len. rewrite Nat2Z.id.
  assert (Py.sdrop (String.length raw) raw = "") as ->.
  { pose proof (length_sdrop (String.length raw) raw) as L.
    destruct (Py.sdrop _ raw); [reflexivity | simpl in L; lia]. }
  now destruct n.
Qed.

End LastCharacter.

(** X1. Whatever a call returns, other than the fixed sentence, contains
    no fence ["```"]: the text kept stops before the first fence that
    follows the opening marker, and when none follows there is none to
    keep. *)
Theorem kept_text_has_no_fence (raw path s : string) (w w1 : world) :
  write_script_to_file raw path w = (Returned s, w1) ->
  s <> failure_message ->
  ~ occurs "```" s.
Proof.
  intros Hrun Hs.
  destruct (returned_content raw path w s w1 Hrun Hs)
    as (start & l1 & E & N & _ & -> & _).
  now apply content_no_fence.
Qed.

Lemma kept_text_has_no_fence_witness :
  write_script_to_file raw_example "out.py" world0
  = (Returned "print(1)", overwritten world0 "out.py" "print(1)")
  /\ ~ occurs "```" "print(1)".
Proof.
  split; [exact example_run |].
  exact (kept_text_has_no_fence raw_example "out.py" "print(1)" world0 _
           example_run example_not_sentence).
Defined.

(** X2. Whatever a call returns, other than the fixed sentence, has no
    white space at either end, with or without a closing fence in the
    input; stripping it again changes nothing. *)
Theorem kept_text_is_stripped (raw path s : string) (w w1 : world) :
  write_script_to_file raw path w = (Returned s, w1) ->
  s <> failure_message ->
  (forall c t, s = String c t -> Py.isspace c = false)
  /\ (forall t c, s = t ++ String c "" -> Py.isspace c = false)
  /\ Py.strip s = s.
Proof.
  intros Hrun Hs.
  destruct (returned_content raw path w s w1 Hrun Hs)
    as (start & l1 & _ & _ & _ & -> & _).
  unfold extracted.
  destruct (strip_spec (Py.slice raw (start + l1) (closing raw start l1)))
    as (l & r & _ & _ & _ & Hhead & Hlast).
  split; [exact Hhead |]. split; [exact Hlast |].
  now apply strip_fixed.
Qed.

Lemma kept_text_is_stripped_witness :
  write_script_to_file raw_example "out.py" world0
  = (Returned "print(1)", overwritten world0 "out.py" "print(1)")
  /\ Py.strip "print(1)" = "print(1)".
Proof.
  split; [exact example_run |].
  exact (proj2 (proj2 (kept_text_is_stripped raw_example "out.py" "print(1)"
                         world0 _ example_run example_not_sentence))).
Defined.

(** X3. Whatever a call returns, other than the fixed sentence, is a
    contiguous part of the input, found at or after the end of the opening
    marker: the method never adds or alters a character. *)
Theorem kept_text_comes_from_input
    (raw path s : string) (w w1 : world) (start l1 : Z) :
  opening raw = (start, l1) ->
  write_script_to_file raw path w = (Returned s, w1) ->
  s <> failure_message ->
  exists k, occurs_at s raw k /\ start + l1 <= Z.of_nat k.
Proof.
  intros E Hrun Hs.
  destruct (returned_content raw path w s w1 Hrun Hs)
    as (start' & l1' & E' & N & _ & -> & _).
  rewrite E in E'. injection E' as <- <-.
  destruct (opening_range _ _ _ E N) as (H0 & H3 & Hlen).
  apply strip_slice_part. lia.
Qed.

Lemma kept_text_comes_from_input_witness :
  opening raw_example = (7, 9)
  /\ exists k, occurs_at "print(1)" raw_example k /\ 7 + 9 <= Z.of_nat k.
Proof.
  assert (opening raw_example = (7, 9)) as E by (vm_compute; reflexivity).
  split; [exact E |].
  exact (kept_text_comes_from_input raw_example "out.py" "print(1)" world0 _
           7 9 E example_run example_not_sentence).
Defined.

(** X4. When [open] refuses the path, what happens depends on the text
    alone: with one of the markers in it, the fault of [open] leaves the
    method uncaught; with none, the path is never opened and the fixed
    sentence is returned. In both cases no file is changed and no file
    operation is performed. *)
Theorem refused_path_matters_only_with_marker
    (raw path : string) (w : world) :
  path ∈ denied w ->
  ((exists m, m ∈ markers /\ occurs m raw) ->
   write_script_to_file raw path w = (Raised (OSError path), w))
  /\ ((forall m, m ∈ markers -> ~ occurs m raw) ->
      write_script_to_file raw path w = (Returned failure_message, w)).
Proof.
  intros Hd. split.
  - intros Hsome. apply some_marker_found in Hsome.
    destruct (opening raw) as [start l1] eqn:E. simpl in Hsome.
    now apply (run_denied raw path w start l1).
  - intros Hnone. apply run_failure. now apply opening_none.
Qed.

Lemma refused_path_matters_only_with_marker_witness :
  ("out.py" ∈ denied world_refusing)
  /\ write_script_to_file raw_example "out.py" world_refusing
     = (Raised (OSError "out.py"), world_refusing)
  /\ write_script_to_file "no fence here" "out.py" world_refusing
     = (Returned failure_message, world_refusing).
Proof.
  assert ("out.py" ∈ denied world_refusing) as Hd
    by (unfold world_refusing; simpl; set_solver).
  split; [exact Hd |]. split.
  - apply (proj1 (refused_path_matters_only_with_marker raw_example "out.py"
                    world_refusing Hd)).
    exists "```python". split.
    + unfold markers. rewrite !elem_of_cons. tauto.
    + apply (occurs_by_decide _ _ 7). vm_compute. reflexivity.
  - apply (proj2 (refused_path_matters_only_with_marker "no fence here"
                    "out.py" world_refusing Hd)).
    apply no_marker_iff. split; apply not_occurs_by_find; vm_compute; reflexivity.
Defined.

(** X5. When no fence follows the opening marker, the call keeps the
    stripped text from the end of the marker up to, but not including,
    the last character of the input. This is the stripped remainder of
    the input exactly when nothing follows the marker or the input ends
    in a white space character; in every other case the last character
    is lost. *)
Theorem unclosed_block_keeps_all_but_last
    (raw path : string) (w : world) (start l1 : Z) (a : nat) :
  opening raw = (start, l1) -> start <> -1 ->
  start + l1 = Z.of_nat a ->
  (forall k, (a <= k)%nat -> ~ occurs_at "```" raw k) ->
  path ∉ denied w ->
  let kept := Py.strip (Py.slice raw (start + l1) (Py.len raw - 1)) in
  let rest := Py.strip (Py.slice raw (start + l1) (Py.len raw)) in
  write_script_to_file raw path w = (Returned kept, overwritten w path kept)
  /\ (kept = rest
      <-> start + l1 = Py.len raw
          \/ exists body c, raw = body ++ String c "" /\ Py.isspace c = true).
Proof.
  intros E N Ea Hnone Hw kept rest. split.
  - rewrite (run_success raw path w start l1 E N Hw).
    now rewrite (unclosed_content raw start l1 a Ea Hnone).
  - destruct (opening_range _ _ _ E N) as (H0 & H3 & Hlen).
    unfold kept, rest. rewrite Ea.
    destruct (Z.eq_dec (Z.of_nat a) (Py.len raw)) as [Eend | Hin].
    + rewrite Eend, !slice_at_end. split; [now left | reflexivity].
    + assert (raw <> "") as Hne
        by (intros ->; unfold Py.len in *; simpl in *; lia).
      destruct (last_character raw Hne) as (body & c & ->).
      assert (a <= String.length body)%nat as Ha
        by (unfold Py.len in *; rewrite length_app in *; simpl in *; lia).
      rewrite (slice_to_end body c a Ha), (slice_to_last body c a Ha).
      destruct (Py.isspace c) eqn:Hc.
      * split; [intros _; right; now exists body, c |].
        intros _. symmetry. now apply strip_snoc_space.
      * split.
        -- intros Heq. symmetry in Heq.
           now apply strip_snoc_nonspace in Heq.
        -- intros [Hend | (body' & c' & Eraw & Hc')]; [lia |].
           assert (c' = c) as ->; [| congruence].
           apply (f_equal (fun s => Py.sdrop (String.length body) s)) in Eraw as Hd.
           rewrite sdrop_app in Hd.
           apply (f_equal String.length) in Eraw as Hl.
           rewrite !length_app in Hl. simpl in Hl.
           replace (String.length body) with (String.length body') in Hd by lia.
           rewrite sdrop_app in Hd. now injection Hd.
Qed.

Lemma unclosed_block_keeps_all_but_last_witness :
  opening raw_unclosed = (0, 9)
  /\ (forall k, (9 <= k)%nat -> ~ occurs_at "```" raw_unclosed k)
  /\ ("out.py" ∉ denied world0)
  /\ write_script_to_file raw_unclosed "out.py" world0
     = (Returned (Py.strip (Py.slice raw_unclosed 9 (Py.len raw_unclosed - 1))),
        overwritten world0 "out.py"
          (Py.strip (Py.slice raw_unclosed 9 (Py.len raw_unclosed - 1)))).
Proof.
  assert (opening raw_unclosed = (0, 9)) as E by (vm_compute; reflexivity).
  assert (forall k, (9 <= k)%nat -> ~ occurs_at "```" raw_unclosed k) as Hnone
    by (apply not_occurs_from_by_find; vm_compute; reflexivity).
  assert ("out.py" ∉ denied world0) as Hw by (unfold world0; simpl; set_solver).
  split; [exact E |]. split; [exact Hnone |]. split; [exact Hw |].
  exact (proj1 (unclosed_block_keeps_all_but_last raw_unclosed "out.py" world0
                  0 9 9 E ltac:(discriminate) eq_refl Hnone Hw)).
Defined.

Section Composition.

Implicit Types (raw s sub p q pre body post m : string) (a k : nat).

Lemma occurs_of_longer p q s : occurs (p ++ q) s -> occurs p s.
Proof.
  intros (k & pre & suf & -> & L). exists k, pre, (q ++ suf).
  split; [now rewrite app_assoc | exact L].
Qed.

Lemma first_from_by_find s sub a k :
  Py.find_from s sub (Z.of_nat a) = Z.of_nat k -> first_from sub s a k.
Proof.
  intros E. destruct (find_from_spec s sub a) as [[E' _] | (k' & E' & Hk)].
  - lia.
  - assert (k' = k) as <- by lia. exact Hk.
Qed.

Lemma first_at_by_find s sub k :
  Py.find s sub = Z.of_nat k -> first_at sub s k.
Proof. apply (first_from_by_find s sub 0 k). Qed.

Lemma occurs_at_middle pre sub post :
  occurs_at sub (pre ++ sub ++ post) (String.length pre).
Proof. now exists pre, post. Qed.

End Composition.

(** X6. A text the method has kept holds no fence, so the method applied
    to its own result can only be started by ["Action:"]: when the result
    does not contain ["Action:"] the second call returns the fixed
    sentence and changes nothing, whatever the path; when it does, the
    opening marker of the second call is ["Action:"] at its leftmost
    offset. *)
Theorem own_output_opens_only_on_action
    (raw path s : string) (w w1 : world) :
  write_script_to_file raw path w = (Returned s, w1) ->
  s <> failure_message ->
  (~ occurs "Action:" s ->
   forall path2 w2,
     write_script_to_file s path2 w2 = (Returned failure_message, w2))
  /\ (occurs "Action:" s ->
      exists k, opening s = (Z.of_nat k, 7) /\ first_at "Action:" s k).
Proof.
  intros Hrun Hs.
  destruct (returned_content raw path w s w1 Hrun Hs)
    as (start & l1 & E & N & _ & Es & _).
  assert (~ occurs "```" s) as Hfence
    by (rewrite Es; now apply content_no_fence).
  split.
  - intros Haction path2 w2. apply run_failure. apply opening_none.
    apply no_marker_iff. now split.
  - intros Haction. rewrite opening_first_found.
    apply (first_found_at markers s 0 1 "Action:"); [reflexivity | exact Haction |].
    intros [|j] m' Hj Hm'; [| lia]. injection Hm' as <-.
    intros Hocc. apply Hfence.
    now apply (occurs_of_longer "```" "python").
Qed.

Lemma own_output_opens_only_on_action_witness :
  write_script_to_file raw_example "out.py" world0
  = (Returned "print(1)", overwritten world0 "out.py" "print(1)")
  /\ write_script_to_file "print(1)" "again.py" world0
     = (Returned failure_message, world0).
Proof.
  split; [exact example_run |].
  apply (proj1 (own_output_opens_only_on_action raw_example "out.py" "print(1)"
                  world0 _ example_run example_not_sentence)).
  apply not_occurs_by_find. vm_compute. reflexivity.
Defined.

(** X7. The whole method on a text of the shape
    [pre ++ m ++ body ++ "```" ++ post], where [m] is one of the markers:
    when no marker listed before [m] occurs anywhere in the text, [m] does
    not occur before the end of [pre], and no fence starts inside [body],
    the call returns [body] stripped and leaves the file holding exactly
    that, whatever [pre] and [post] contain otherwise. *)
Theorem fenced_block_end_to_end
    (raw path pre m body post : string) (w : world) (i : nat) :
  markers !! i = Some m ->
  raw = pre ++ m ++ body ++ "```" ++ post ->
  (forall j m', (j < i)%nat -> markers !! j = Some m' -> ~ occurs m' raw) ->
  (forall k, (k < String.length pre)%nat -> ~ occurs_at m raw k) ->
  (forall k, (k < String.length body)%nat ->
     ~ occurs_at "```" raw (String.length pre + String.length m + k)) ->
  path ∉ denied w ->
  write_script_to_file raw path w
  = (Returned (Py.strip body), overwritten w path (Py.strip body)).
Proof.
  intros Hi Eraw Hbefore Hpre Hbody Hw.
  assert (occurs_at m raw (String.length pre)) as Hm
    by (rewrite Eraw; apply occurs_at_middle).
  assert (first_at m raw (String.length pre)) as Hfirst.
  { split; [lia |]. split; [exact Hm |]. intros k _ Hk. now apply Hpre. }
  destruct (first_found_at markers raw 0 i m Hi) as (k & E & Hk);
    [now exists (String.length pre) | exact Hbefore |].
  rewrite <- opening_first_found in E.
  rewrite (first_from_unique _ _ _ _ _ Hk Hfirst) in E. clear k Hk.
  set (a := (String.length pre + String.length m)%nat).
  assert (Z.of_nat (String.length pre) + Py.len m = Z.of_nat a) as Ea
    by (unfold Py.len, a; lia).
  assert (raw = (pre ++ m) ++ body ++ "```" ++ post) as Esplit
    by (now rewrite app_assoc).
  assert (first_from "```" raw a (a + String.length body)) as Hclose.
  { split; [lia |]. split.
    - rewrite Esplit, <- (app_assoc (pre ++ m) body).
      replace (a + String.length body)%nat
        with (String.length ((pre ++ m) ++ body))
        by (unfold a; rewrite !length_app; lia).
      apply occurs_at_middle.
    - intros k Hge Hlt.
      replace k with (String.length pre + String.length m + (k - a))%nat
        by (unfold a in *; lia).
      apply Hbody. lia. }
  rewrite (run_success raw path w _ _ E); [| lia | exact Hw].
  rewrite (closing_found raw _ _ a _ Ea Hclose). unfold extracted.
  replace (Z.of_nat (String.length pre) + Py.len m) with (Py.len (pre ++ m))
    by (unfold Py.len; rewrite length_app; lia).
  replace (Z.of_nat (a + String.length body))
    with (Py.len (pre ++ m) + Py.len body)
    by (unfold Py.len, a; rewrite length_app; lia).
  rewrite Esplit, slice_between. reflexivity.
Qed.

Lemma fenced_block_end_to_end_witness :
  markers !! 0%nat = Some "```python"
  /\ raw_example
     = "prefix " ++ "```python" ++ (nl ++ "print(1)" ++ nl) ++ "```" ++ " suffix"
  /\ ("out.py" ∉ denied world0)
  /\ write_script_to_file raw_example "out.py" world0
     = (Returned (Py.strip (nl ++ "print(1)" ++ nl)),
        overwritten world0 "out.py" (Py.strip (nl ++ "print(1)" ++ nl))).
Proof.
  assert ("out.py" ∉ denied world0) as Hw by (unfold world0; simpl; set_solver).
  split; [reflexivity |]. split; [reflexivity |]. split; [exact Hw |].
  apply (fenced_block_end_to_end raw_example "out.py" "prefix " "```python"
           (nl ++ "print(1)" ++ nl) " suffix" world0 0).
  - reflexivity.
  - reflexivity.
  - intros j m' Hj. lia.
  - intros k Hk.
    assert (first_at "```python" raw_example 7) as (_ & _ & Hmin)
      by (apply first_at_by_find; vm_compute; reflexivity).
    apply Hmin; [lia | simpl in Hk; lia].
  - intros k Hk.
    assert (first_from "```" raw_example 16 26) as (_ & _ & Hmin)
      by (apply first_from_by_find; vm_compute; reflexivity).
    simpl in Hk. apply Hmin; simpl; lia.
  - exact Hw.
Defined.

(** ** Rows of the data frame *)

Section RowFacts.

Context {pyobj : Type} (of_str : string -> pyobj) (uuid4_hex : nat -> string).

Implicit Types (documents : list (document pyobj)) (chunk : document pyobj)
  (rows : list (gmap string pyobj)) (row : gmap string pyobj)
  (drawn i : nat).

(** The loop adds one row per document, in order, the [i]-th with the
    [i]-th identifier drawn from now on. *)
Lemma rows_loop_spec documents rows drawn :
  rows_loop of_str uuid4_hex documents rows drawn
  = ((rows
      ++ imap (fun i chunk => make_row of_str chunk (uuid4_hex (drawn + i)))
           documents)%list,
     (drawn + length documents)%nat).
Proof.
  revert rows drawn.
  induction documents as [|chunk documents IH]; intros rows drawn; simpl.
  - now rewrite (right_id_L [] (++)), Nat.add_0_r.
  - rewrite IH, <- (assoc_L (++)). simpl. rewrite Nat.add_0_r.
    f_equal; [| lia]. do 2 f_equal.
    apply imap_ext. intros i x _. simpl. do 2 f_equal. lia.
Qed.

Lemma rows_lookup documents drawn i :
  fst (generate_docs2Dataframe of_str uuid4_hex documents drawn) !! i
  = (fun chunk => make_row of_str chunk (uuid4_hex (drawn + i)))
      <$> documents !! i.
Proof.
  unfold generate_docs2Dataframe. rewrite rows_loop_spec. simpl.
  apply list_lookup_imap.
Qed.

Lemma row_chunk_id chunk id :
  make_row of_str chunk id !! "chunk_id" = Some (of_str id).
Proof. unfold make_row. apply lookup_insert_eq. Qed.

Lemma row_text chunk id :
  make_row of_str chunk id !! "text"
  = Some (default (of_str (page_content chunk)) (metadata chunk !! "text")).
Proof.
  unfold make_row. rewrite lookup_insert_ne by discriminate.
  rewrite lookup_union, lookup_insert_eq.
  now destruct (metadata chunk !! "text").
Qed.

Lemma row_other chunk id (key : string) :
  key <> "text" -> key <> "chunk_id" ->
  make_row of_str chunk id !! key = metadata chunk !! key.
Proof.
  intros Ht Hc. unfold make_row. rewrite lookup_insert_ne by congruence.
  apply lookup_union_l. rewrite lookup_insert_ne by congruence.
  apply lookup_empty.
Qed.

Lemma row_keys chunk id :
  dom (make_row of_str chunk id)
  = {["chunk_id"; "text"]} ∪ dom (metadata chunk).
Proof.
  unfold make_row. rewrite dom_insert_L, dom_union_L, dom_insert_L, dom_empty_L.
  apply set_eq. intros key. rewrite !elem_of_union, elem_of_empty. tauto.
Qed.

End RowFacts.

(** ** Pages *)

Section ReplaceFacts.

Implicit Types (s : string) (a b c : ascii) (i k : nat).

Lemma replace_char_cons a b c s :
  str_replace (String c s) (String a "") (String b "")
  = String (if Ascii.eqb c a then b else c)
      (str_replace s (String a "") (String b "")).
Proof.
  unfold str_replace. simpl. rewrite (Ascii.eqb_sym a c).
  destruct (Ascii.eqb c a); reflexivity.
Qed.

Lemma replace_char_get a b s i :
  String.get i (str_replace s (String a "") (String b ""))
  = (fun c => if Ascii.eqb c a then b else c) <$> String.get i s.
Proof.
  revert i. induction s as [|c s IH]; intros i; [reflexivity |].
  rewrite replace_char_cons. destruct i as [|i]; simpl; [reflexivity | apply IH].
Qed.

Lemma replace_char_length a b s :
  String.length (str_replace s (String a "") (String b "")) = String.length s.
Proof.
  induction s as [|c s IH]; [reflexivity |].
  rewrite replace_char_cons. cbn [String.length]. now rewrite IH.
Qed.

Lemma occurs_at_char a s k :
  occurs_at (String a "") s k <-> String.get k s = Some a.
Proof.
  revert k. induction s as [|c s IH]; intros k.
  - split; [| discriminate]. intros H. apply occurs_at_bound in H.
    simpl in H. lia.
  - destruct k as [|k].
    + rewrite occurs_at_head. simpl. rewrite andb_true_r, Ascii.eqb_eq.
      split; [now intros -> | now intros [= ->]].
    + rewrite occurs_at_tail. apply IH.
Qed.

Lemma replace_char_gone a b s :
  a <> b -> ~ occurs (String a "") (str_replace s (String a "") (String b "")).
Proof.
  intros Hab [k Hk]. apply occurs_at_char in Hk.
  rewrite replace_char_get in Hk.
  destruct (String.get k s) as [c|]; [| discriminate]. simpl in Hk.
  injection Hk as Hk. destruct (Ascii.eqb_spec c a); congruence.
Qed.

End ReplaceFacts.

(** ** Properties of [generate_docs2Dataframe] *)

(** X8. The loop builds exactly one row per document and keeps their
    order: the [i]-th row is made from the [i]-th document and the
    [i]-th identifier drawn during the call, and the call draws as many
    identifiers as there are documents. *)
Theorem rows_follow_documents
    {pyobj : Type} (of_str : string -> pyobj) (uuid4_hex : nat -> string)
    (documents : list (document pyobj)) (drawn : nat) :
  let frame := generate_docs2Dataframe of_str uuid4_hex documents drawn in
  length (fst frame) = length documents
  /\ snd frame = (drawn + length documents)%nat
  /\ forall i,
       fst frame !! i
       = (fun chunk => make_row of_str chunk (uuid4_hex (drawn + i)%nat))
           <$> documents !! i.
Proof.
  cbv zeta. split; [| split].
  - unfold generate_docs2Dataframe. rewrite rows_loop_spec. simpl.
    apply length_imap.
  - unfold generate_docs2Dataframe. now rewrite rows_loop_spec.
  - intros i. apply rows_lookup.
Qed.

(** X9. The ["chunk_id"] of every row is the identifier drawn for it; a
    ["chunk_id"] that the document's metadata already has is replaced. *)
Theorem chunk_id_is_the_fresh_draw
    {pyobj : Type} (of_str : string -> pyobj) (uuid4_hex : nat -> string)
    (documents : list (document pyobj)) (drawn i : nat)
    (chunk : document pyobj) :
  documents !! i = Some chunk ->
  exists row,
    fst (generate_docs2Dataframe of_str uuid4_hex documents drawn) !! i
    = Some row
    /\ row !! "chunk_id" = Some (of_str (uuid4_hex (drawn + i)%nat)).
Proof.
  intros Hi. eexists. rewrite rows_lookup, Hi. simpl.
  split; [reflexivity | apply row_chunk_id].
Qed.

Lemma chunk_id_is_the_fresh_draw_witness :
  [doc_shadowing] !! 0%nat = Some doc_shadowing
  /\ metadata doc_shadowing !! "chunk_id" = Some "old"
  /\ exists row,
       fst (generate_docs2Dataframe id uuid_example [doc_shadowing] 0)
         !! 0%nat = Some row
       /\ row !! "chunk_id" = Some "0f8fad5bd9cb469fa16570867728950e".
Proof.
  split; [reflexivity |]. split; [vm_compute; reflexivity |].
  exact (chunk_id_is_the_fresh_draw id uuid_example [doc_shadowing] 0 0
           doc_shadowing eq_refl).
Defined.

(** X10. The ["text"] of a row is the document's text only when the
    metadata has no key ["text"]; when it has one, the metadata value
    takes its place. *)
Theorem text_is_shadowed_by_metadata
    {pyobj : Type} (of_str : string -> pyobj) (uuid4_hex : nat -> string)
    (documents : list (document pyobj)) (drawn i : nat)
    (chunk : document pyobj) :
  documents !! i = Some chunk ->
  exists row,
    fst (generate_docs2Dataframe of_str uuid4_hex documents drawn) !! i
    = Some row
    /\ row !! "text"
       = Some (default (of_str (page_content chunk))
                 (metadata chunk !! "text")).
Proof.
  intros Hi. eexists. rewrite rows_lookup, Hi. simpl.
  split; [reflexivity | apply row_text].
Qed.

Lemma text_is_shadowed_by_metadata_witness :
  [doc_shadowing] !! 0%nat = Some doc_shadowing
  /\ page_content doc_shadowing = "hello"
  /\ exists row,
       fst (generate_docs2Dataframe id uuid_example [doc_shadowing] 0)
         !! 0%nat = Some row
       /\ row !! "text" = Some "shadow".
Proof.
  split; [reflexivity |]. split; [reflexivity |].
  exact (text_is_shadowed_by_metadata id uuid_example [doc_shadowing] 0 0
           doc_shadowing eq_refl).
Defined.

(** X11. When the loop of lines 164-170 has ended, every dictionary of
    the list [rows], which line 172 hands to [pd.DataFrame], holds apart
    from ["text"] and ["chunk_id"] exactly the metadata of its document:
    its keys are those two and the metadata keys, and every other key has
    the metadata value. This is a property of the list [rows], not of the
    frame built from it, where a key that a row lacks is filled in. *)
Theorem row_dicts_carry_metadata
    {pyobj : Type} (of_str : string -> pyobj) (uuid4_hex : nat -> string)
    (documents : list (document pyobj)) (drawn i : nat)
    (chunk : document pyobj) :
  documents !! i = Some chunk ->
  exists row,
    fst (rows_loop of_str uuid4_hex documents [] drawn) !! i = Some row
    /\ dom row = {["chunk_id"; "text"]} ∪ dom (metadata chunk)
    /\ forall key : string,
         key <> "text" -> key <> "chunk_id" ->
         row !! key = metadata chunk !! key.
Proof.
  intros Hi. eexists. rewrite rows_loop_spec. simpl.
  rewrite list_lookup_imap, Hi. simpl.
  split; [reflexivity |]. split; [apply row_keys |].
  intros key. apply row_other.
Qed.

Lemma row_dicts_carry_metadata_witness :
  [doc_shadowing] !! 0%nat = Some doc_shadowing
  /\ exists row,
       fst (rows_loop id uuid_example [doc_shadowing] [] 0) !! 0%nat = Some row
       /\ row !! "source" = Some "f.txt".
Proof.
  split; [reflexivity |].
  destruct (row_dicts_carry_metadata id uuid_example [doc_shadowing] 0 0
              doc_shadowing eq_refl) as (row & Hrow & _ & Hkeys).
  exists row. split; [exact Hrow |].
  rewrite (Hkeys "source") by discriminate. vm_compute. reflexivity.
Defined.

(** X12. The rows of two lists of documents put end to end are the rows
    of the first list followed by the rows of the second, the second
    being built with the identifiers drawn after those of the first. *)
Theorem rows_of_appended_documents
    {pyobj : Type} (of_str : string -> pyobj) (uuid4_hex : nat -> string)
    (first second : list (document pyobj)) (drawn : nat) :
  generate_docs2Dataframe of_str uuid4_hex (first ++ second)%list drawn
  = ((fst (generate_docs2Dataframe of_str uuid4_hex first drawn)
      ++ fst (generate_docs2Dataframe of_str uuid4_hex second
                (snd (generate_docs2Dataframe of_str uuid4_hex first drawn))))%list,
     snd (generate_docs2Dataframe of_str uuid4_hex second
            (snd (generate_docs2Dataframe of_str uuid4_hex first drawn)))).
Proof.
  unfold generate_docs2Dataframe. rewrite !rows_loop_spec. simpl.
  rewrite imap_app, List.length_app. f_equal; [| lia]. f_equal.
  apply imap_ext. intros i x _. simpl. do 2 f_equal. lia.
Qed.

(** ** Properties of [generate_docs_pages] *)

Section PageFacts.

Context {pyobj : Type}.
Variable load : string -> option (list (document pyobj)).
Variable split_documents : list (document pyobj) -> list (document pyobj).

Implicit Types (docs pages : list (document pyobj)) (name : string).

(** The run of the method once the loader has answered. *)
Lemma pages_after_load name docs :
  load ("./" ++ "data_preparation/data/KGraph_data/" ++ name) = Some docs ->
  generate_docs_pages load split_documents name
  = match flatten_first docs with
    | Fault f => Fault f
    | Pages flat =>
        if decide (6 <= length (split_documents flat))%nat
        then Pages (split_documents flat) else Fault IndexError
    end.
Proof.
  intros Hload. unfold generate_docs_pages. cbv zeta. rewrite Hload.
  destruct (flatten_first docs) as [flat | f]; [| reflexivity].
  destruct (decide (6 <= length (split_documents flat))%nat) as [Hn | Hn].
  - destruct (lookup_lt_is_Some_2 (split_documents flat) 5) as [p ->];
      [lia | reflexivity].
  - rewrite (proj2 (lookup_ge_None (split_documents flat) 5));
      [reflexivity | lia].
Qed.

End PageFacts.

(** X13. Once the file has been loaded, [generate_docs_pages] raises
    [IndexError] exactly when the loader gave no document or the
    splitter gives five chunks or fewer: the sixth chunk is read, for
    the log, before the pages are returned. *)
Theorem pages_fail_below_six_chunks
    {pyobj : Type} (load : string -> option (list (document pyobj)))
    (split_documents : list (document pyobj) -> list (document pyobj))
    (input_file_name : string) (docs : list (document pyobj)) :
  load ("./" ++ "data_preparation/data/KGraph_data/" ++ input_file_name)
  = Some docs ->
  generate_docs_pages load split_documents input_file_name = Fault IndexError
  <-> docs = []
      \/ exists flat,
           flatten_first docs = Pages flat
           /\ (length (split_documents flat) <= 5)%nat.
Proof.
  intros Hload. rewrite (pages_after_load load split_documents _ _ Hload).
  destruct docs as [|first others]; simpl.
  - split; [now left | reflexivity].
  - destruct (decide _) as [Hn | Hn]; split.
    + discriminate.
    + intros [[=] | (flat & [= <-] & Hle)]. lia.
    + intros _. right. eexists. split; [reflexivity | lia].
    + reflexivity.
Qed.

Lemma pages_fail_below_six_chunks_witness :
  load_example ("./" ++ "data_preparation/data/KGraph_data/" ++ "notes.txt")
  = Some [doc_two_lines]
  /\ generate_docs_pages load_example split_one "notes.txt" = Fault IndexError.
Proof.
  split; [reflexivity |].
  apply (pages_fail_below_six_chunks load_example split_one "notes.txt"
           [doc_two_lines] eq_refl).
  right. eexists. split; [reflexivity |]. simpl. lia.
Defined.

(** X14. When [generate_docs_pages] returns, the loader gave at least one
    document, the pages are what the splitter makes of the loaded
    documents with the first one flattened, and there are six or more of
    them. The flattened document has the metadata and the length of the
    loaded one, every line feed in it has become a space, every other
    character is unchanged, and no line feed is left. *)
Theorem pages_come_from_flattened_text
    {pyobj : Type} (load : string -> option (list (document pyobj)))
    (split_documents : list (document pyobj) -> list (document pyobj))
    (input_file_name : string) (pages : list (document pyobj)) :
  generate_docs_pages load split_documents input_file_name = Pages pages ->
  exists first others flat,
    load ("./" ++ "data_preparation/data/KGraph_data/" ++ input_file_name)
    = Some (first :: others)
    /\ pages = split_documents (flat :: others)
    /\ (6 <= length pages)%nat
    /\ metadata flat = metadata first
    /\ String.length (page_content flat) = String.length (page_content first)
    /\ (forall i,
          String.get i (page_content flat)
          = (fun c => if Ascii.eqb c (ascii_of_nat 10) then " "%char else c)
              <$> String.get i (page_content first))
    /\ ~ occurs nl (page_content flat).
Proof.
  intros Hrun.
  destruct (load ("./" ++ "data_preparation/data/KGraph_data/" ++ input_file_name))
    as [docs|] eqn:Hload.
  - rewrite (pages_after_load load split_documents _ _ Hload) in Hrun.
    destruct docs as [|first others]; simpl in Hrun; [discriminate |].
    destruct (decide _) as [Hn | Hn] in Hrun; [| discriminate].
    injection Hrun as <-.
    eexists first, others, _. split; [reflexivity |].
    split; [reflexivity |]. split; [exact Hn |]. split; [reflexivity |].
    simpl. unfold nl. split; [apply replace_char_length |].
    split; [intros i; apply replace_char_get |].
    apply replace_char_gone. discriminate.
  - unfold generate_docs_pages in Hrun. cbv zeta in Hrun.
    rewrite Hload in Hrun. discriminate.
Qed.

Lemma pages_come_from_flattened_text_witness :
  generate_docs_pages load_example split_six "notes.txt"
  = Pages (split_six [mk_document "one two" (metadata doc_two_lines)])
  /\ exists first others flat,
       load_example ("./" ++ "data_preparation/data/KGraph_data/" ++ "notes.txt")
       = Some (first :: others)
       /\ split_six [mk_document "one two" (metadata doc_two_lines)]
          = split_six (flat :: others)
       /\ ~ occurs nl (page_content flat).
Proof.
  assert (generate_docs_pages load_example split_six "notes.txt"
          = Pages (split_six [mk_document "one two" (metadata doc_two_lines)]))
    as Hrun by (vm_compute; reflexivity).
  split; [exact Hrun |].
  destruct (pages_come_from_flattened_text load_example split_six "notes.txt"
              _ Hrun) as (first & others & flat & Hl & Hp & _ & _ & _ & _ & Hn).
  now exists first, others, flat.
Defined.
